(** * Vector store and matcher of the function-matching service

    Shallow embedding of [rag/vector_store.py] (class [VectorStore]) and of
    [rag/embeddings.py] (class [EmbeddingGenerator]), with the catalog of
    [function_registry/functions.py].

    Conventions of the model.
    - A Python call that may raise is a value of [result A]; a method that
      mutates its receiver or the disk is a state transformer [M S A] that
      returns the outcome together with the state it leaves behind, so that
      what an exception leaves half-done stays visible.
    - A numpy array is its shape and its row-major data.
    - The numbers of an array are integers; the index computes distances in
      float32, modelled on integers by rounding to a 24-bit significand
      after each operation, with overflow to an infinite value.
    - [faiss.IndexFlatL2] and its Python binding are a third-party library;
      the module [faiss] below models the documented behaviour of the flat
      index (exhaustive squared-L2 search, labels padded with -1, arguments
      checked by the binding before the search runs). *)

From stdpp Require Import gmap strings list fin_maps sorting.
From Stdlib Require Import ZArith Lia.

Local Open Scope Z_scope.

(** ** Exceptions and the two monads *)

Inductive exn : Set :=
  | ValueError
  | AssertionError
  | TypeError
  | IndexError
  | AttributeError
  | FileNotFoundError
  | UnpicklingError
  | RuntimeError.

Definition result (A : Type) : Type := exn + A.

Definition ret {A} (a : A) : result A := inr a.
Definition raise {A} (e : exn) : result A := inl e.
Definition bind {A B} (r : result A) (f : A -> result B) : result B :=
  match r with
  | inl e => inl e
  | inr a => f a
  end.

Notation "'let!' x ':=' r 'in' k" := (bind r (fun x => k))
  (at level 10, x pattern, r at level 100, k at level 200).

Definition fails {A} (r : result A) : Prop := exists e, r = inl e.

(** State transformer with exceptions: the state is returned also when the
    call raises. *)
Definition M (S A : Type) : Type := S -> result A * S.

Definition mret {S A} (a : A) : M S A := fun s => (inr a, s).
Definition mbind {S A B} (m : M S A) (f : A -> M S B) : M S B :=
  fun s => match m s with
           | (inl e, s') => (inl e, s')
           | (inr a, s') => f a s'
           end.
Definition lift {S A} (r : result A) : M S A := fun s => (r, s).

Notation "'do!' x ':=' m 'in' k" := (mbind m (fun x => k))
  (at level 10, x pattern, m at level 100, k at level 200).

(** ** Python sequences *)

(** [l[i]] for a Python list or a numpy axis: a negative index counts from
    the end, anything outside [-len, len) raises [IndexError]. *)
Definition py_getitem {A} (l : list A) (i : Z) : result A :=
  let n := Z.of_nat (length l) in
  if bool_decide (0 <= i < n) then
    match l !! Z.to_nat i with Some a => ret a | None => raise IndexError end
  else if bool_decide (- n <= i < 0) then
    match l !! Z.to_nat (n + i) with Some a => ret a | None => raise IndexError end
  else raise IndexError.

(** ** numpy arrays *)

Module np.

Record ndarray : Type := mk { shape : list nat; data : list Z }.

Definition ndim (a : ndarray) : nat := length (shape a).

Definition size (a : ndarray) : nat := foldr Nat.mul 1%nat (shape a).

(** A real array holds exactly [size] numbers. *)
Definition wf (a : ndarray) : Prop := length (data a) = size a.

(** [len(a)]: the first axis; a 0-dimensional array has no length. *)
Definition len (a : ndarray) : result nat :=
  match shape a with
  | [] => raise TypeError
  | n :: _ => ret n
  end.

(** [a.reshape(1, -1)]: one row holding all the elements. *)
Definition reshape_1_m1 (a : ndarray) : ndarray :=
  {| shape := [1%nat; size a]; data := data a |}.

(** [n, d = x.shape] *)
Definition unpack2 (a : ndarray) : result (nat * nat) :=
  match shape a with
  | [n; d] => ret (n, d)
  | _ => raise ValueError
  end.

(** The [n] rows of width [d] of row-major data. *)
Fixpoint rows (n d : nat) (xs : list Z) : list (list Z) :=
  match n with
  | O => []
  | S n' => take d xs :: rows n' d (drop d xs)
  end.

End np.

(** ** faiss.IndexFlatL2 *)

Module faiss.

Record IndexFlatL2 : Type := mk { d : nat; xb : list (list Z) }.

Definition ntotal (ix : IndexFlatL2) : nat := length (xb ix).

(** [faiss.IndexFlatL2(d)] *)
Definition new (dim : nat) : IndexFlatL2 := {| d := dim; xb := [] |}.

(** [index.add(x)]: [n, d = x.shape; assert d == self.d], then the rows are
    appended after the stored ones. *)
Definition add (ix : IndexFlatL2) (x : np.ndarray) : result IndexFlatL2 :=
  let! (n, dx) := np.unpack2 x in
  if bool_decide (dx = d ix) then
    ret {| d := d ix; xb := xb ix ++ np.rows n dx (np.data x) |}
  else raise AssertionError.

(** The largest finite float32, [(2^24 - 1) * 2^104]. *)
Definition FLT_MAX : Z := 340282346638528859811704183484516925440.

(** The index stores and computes in float32. The numbers of an array are
    integers here, so a float32 operation is the exact integer operation
    followed by [fl32]: rounding to a 24-bit significand, to nearest with
    ties to even, and [None] when the rounded value exceeds [FLT_MAX]
    (the float32 result is infinite). *)
Definition fl32 (z : Z) : option Z :=
  let a := Z.abs z in
  if bool_decide (a < 2 ^ 24) then Some z
  else
    let e := Z.log2 a - 23 in
    let q := a / 2 ^ e in
    let r := a mod 2 ^ e in
    let half := 2 ^ (e - 1) in
    let q' := if bool_decide (r < half) then q
              else if bool_decide (half < r) then q + 1
              else if Z.even q then q else q + 1 in
    let m := q' * 2 ^ e in
    if bool_decide (FLT_MAX < m) then None else Some (Z.sgn z * m).

(** Squared Euclidean distance in float32, the terms accumulated from the
    first component on ([None]: not finite). *)
Fixpoint fvec_L2sqr_acc (acc : Z) (x y : list Z) : option Z :=
  match x, y with
  | a :: x', b :: y' =>
    match fl32 (a - b) with
    | None => None
    | Some dif =>
      match fl32 (dif * dif) with
      | None => None
      | Some sq =>
        match fl32 (acc + sq) with
        | None => None
        | Some acc' => fvec_L2sqr_acc acc' x' y'
        end
      end
    end
  | _, _ => Some acc
  end.

Definition fvec_L2sqr (x y : list Z) : option Z := fvec_L2sqr_acc 0 x y.

(** The distance of a stored vector that can enter the result: the search
    keeps a candidate only if its distance is below the initial threshold
    [FLT_MAX] of the result heap, so a vector at an infinite distance is
    never reported. *)
Definition finite_dist (q v : list Z) : option Z :=
  match fvec_L2sqr q v with
  | Some dv => if bool_decide (dv < FLT_MAX) then Some dv else None
  | None => None
  end.

(** Order of the results: nearer first, and among equally distant vectors the
    one added first. A candidate is the pair (distance, label). *)
Definition nearer (a b : Z * Z) : Prop :=
  a.1 < b.1 \/ (a.1 = b.1 /\ a.2 <= b.2).

#[global] Instance nearer_dec : RelDecision nearer.
Proof. intros a b. unfold nearer. apply _. Defined.

Definition candidate (q : list Z) (i : nat) (v : list Z) : option (Z * Z) :=
  (fun dv => (dv, Z.of_nat i)) <$> finite_dist q v.

Definition scored (vs : list (list Z)) (q : list Z) : list (Z * Z) :=
  omap id (imap (candidate q) vs).

(** The [k] best candidates of one query, nearest first. *)
Definition top (vs : list (list Z)) (q : list Z) (k : nat) : list (Z * Z) :=
  take k (merge_sort nearer (scored vs q)).

(** One row of the answer: exactly [k] slots, the unused ones holding the
    label -1. *)
Definition knn (vs : list (list Z)) (q : list Z) (k : nat) : list (Z * Z) :=
  let t := top vs q k in
  t ++ replicate (k - length t)%nat (FLT_MAX, -1).

(** [D, I = index.search(x, k)]: [n, d = x.shape; assert d == self.d;
    assert k > 0], then one row of distances and one row of labels per query
    row. *)
Definition search (ix : IndexFlatL2) (x : np.ndarray) (k : Z)
  : result (list (list Z) * list (list Z)) :=
  let! (n, dx) := np.unpack2 x in
  if negb (bool_decide (dx = d ix)) then raise AssertionError
  else if negb (bool_decide (k > 0)) then raise AssertionError
  else
    let answers := (fun q => knn (xb ix) q (Z.to_nat k)) <$> np.rows n dx (np.data x) in
    ret ((fun r => fst <$> r) <$> answers, (fun r => snd <$> r) <$> answers).

End faiss.

(** ** Catalog entries *)

Record function_meta : Type := {
  name : string;
  description : string;
  keywords : list string;
  category : string;
  parameters : option (list string)
}.

(** ** VectorStore *)

Record VectorStore : Type := {
  dimension : nat;
  index : faiss.IndexFlatL2;
  metadata : list function_meta
}.

(** [VectorStore(dimension)] *)
Definition VectorStore_init (dim : nat) : VectorStore :=
  {| dimension := dim; index := faiss.new dim; metadata := [] |}.

(** [add_items(self, embeddings, metadata_list)] *)
Definition add_items (embeddings : np.ndarray) (metadata_list : list function_meta)
  : M VectorStore () :=
  fun self =>
    match np.len embeddings with
    | inl e => (inl e, self)
    | inr n =>
      if negb (bool_decide (n = length metadata_list)) then (inl ValueError, self)
      else
        match faiss.add (index self) embeddings with
        | inl e => (inl e, self)
        | inr ix =>
          (inr (), {| dimension := dimension self;
                      index := ix;
                      metadata := metadata self ++ metadata_list |})
        end
    end.

(** The loop of [search]: [for i, idx in enumerate(indices[0])]. *)
Fixpoint search_loop (md : list function_meta) (distances : list (list Z))
    (enum : list (nat * Z)) (results : list (function_meta * Z))
  : result (list (function_meta * Z)) :=
  match enum with
  | [] => ret results
  | (i, idx) :: rest =>
    if bool_decide (idx <> -1) && bool_decide (idx < Z.of_nat (length md)) then
      let! m := py_getitem md idx in
      let! d0 := py_getitem distances 0 in
      let! dv := py_getitem d0 (Z.of_nat i) in
      search_loop md distances rest (results ++ [(m, dv)])
    else search_loop md distances rest results
  end.

Definition enumerate {A} (l : list A) : list (nat * A) := imap pair l.

(** [search(self, query_embedding, k)] *)
Definition search (self : VectorStore) (query_embedding : np.ndarray) (k : Z)
  : result (list (function_meta * Z)) :=
  let query_embedding :=
    if bool_decide (np.ndim query_embedding = 1%nat)
    then np.reshape_1_m1 query_embedding else query_embedding in
  let! (distances, indices) := faiss.search (index self) query_embedding k in
  let! i0 := py_getitem indices 0 in
  search_loop (metadata self) distances (enumerate i0) [].

(** ** Persisted state

    A saved store is a directory with three files. A file that exists holds
    either what [save] wrote there or bytes that cannot be read back. *)

Inductive file (A : Type) : Type :=
  | Garbage
  | Content (a : A).
Arguments Garbage {A}.
Arguments Content {A} a.

Record directory : Type := {
  index_faiss : option (file faiss.IndexFlatL2);
  metadata_pkl : option (file (list function_meta));
  config_pkl : option (file nat)
}.

Definition empty_dir : directory :=
  {| index_faiss := None; metadata_pkl := None; config_pkl := None |}.

Abbreviation filesystem := (gmap string directory).

(** [os.makedirs(directory, exist_ok=True)] *)
Definition makedirs (dir : string) : M filesystem () :=
  fun fs => (inr (), match fs !! dir with
                     | Some _ => fs
                     | None => <[dir := empty_dir]> fs
                     end).

(** [faiss.write_index(index, os.path.join(directory, "index.faiss"))] *)
Definition write_index (ix : faiss.IndexFlatL2) (dir : string) : M filesystem () :=
  fun fs => match fs !! dir with
            | None => (inl RuntimeError, fs)
            | Some dd =>
              (inr (), <[dir := {| index_faiss := Some (Content ix);
                                   metadata_pkl := metadata_pkl dd;
                                   config_pkl := config_pkl dd |}]> fs)
            end.

(** [pickle.dump(metadata, open(os.path.join(directory, "metadata.pkl"), "wb"))] *)
Definition dump_metadata (md : list function_meta) (dir : string) : M filesystem () :=
  fun fs => match fs !! dir with
            | None => (inl FileNotFoundError, fs)
            | Some dd =>
              (inr (), <[dir := {| index_faiss := index_faiss dd;
                                   metadata_pkl := Some (Content md);
                                   config_pkl := config_pkl dd |}]> fs)
            end.

(** [pickle.dump({"dimension": dim}, open(os.path.join(directory, "config.pkl"), "wb"))] *)
Definition dump_config (dim : nat) (dir : string) : M filesystem () :=
  fun fs => match fs !! dir with
            | None => (inl FileNotFoundError, fs)
            | Some dd =>
              (inr (), <[dir := {| index_faiss := index_faiss dd;
                                   metadata_pkl := metadata_pkl dd;
                                   config_pkl := Some (Content dim) |}]> fs)
            end.

(** [faiss.read_index(path)] *)
Definition read_index (fs : filesystem) (dir : string) : result faiss.IndexFlatL2 :=
  match fs !! dir ≫= index_faiss with
  | Some (Content ix) => ret ix
  | Some Garbage => raise RuntimeError
  | None => raise RuntimeError
  end.

(** [pickle.load(open(path, "rb"))] *)
Definition pickle_load {A} (f : option (file A)) : result A :=
  match f with
  | Some (Content a) => ret a
  | Some Garbage => raise UnpicklingError
  | None => raise FileNotFoundError
  end.

(** [save(self, directory)] *)
Definition save (self : VectorStore) (directory : string) : M filesystem () :=
  do! _ := makedirs directory in
  do! _ := write_index (index self) directory in
  do! _ := dump_metadata (metadata self) directory in
  dump_config (dimension self) directory.

(** [VectorStore.load(directory)] *)
Definition load (directory : string) (fs : filesystem) : result VectorStore :=
  let! config := pickle_load (fs !! directory ≫= config_pkl) in
  let vector_store := VectorStore_init config in
  let! ix := read_index fs directory in
  let vector_store :=
    {| dimension := dimension vector_store; index := ix;
       metadata := metadata vector_store |} in
  let! md := pickle_load (fs !! directory ≫= metadata_pkl) in
  ret {| dimension := dimension vector_store; index := index vector_store;
         metadata := md |}.

(** ** EmbeddingGenerator *)

Record EmbeddingGenerator : Type := {
  model_name : string;
  vector_store : option VectorStore
}.

(** [EmbeddingGenerator(model_name)] *)
Definition EmbeddingGenerator_init (mname : string) : EmbeddingGenerator :=
  {| model_name := mname; vector_store := None |}.

(** The generator together with the disk it reads and writes. *)
Definition world : Type := EmbeddingGenerator * filesystem.

Definition on_fs {A} (m : M filesystem A) : M world A :=
  fun w => let (r, fs') := m w.2 in (r, (w.1, fs')).

Definition set_vector_store (vs : VectorStore) : M world () :=
  fun w => (inr (), ({| model_name := model_name w.1; vector_store := Some vs |}, w.2)).

(** [self.vector_store.<method>]: an attribute of [None] does not exist. *)
Definition get_vector_store : M world VectorStore :=
  fun w => match vector_store w.1 with
           | Some vs => (inr vs, w)
           | None => (inl AttributeError, w)
           end.

Definition on_vector_store {A} (m : M VectorStore A) : M world A :=
  do! vs := get_vector_store in
  fun w => let (r, vs') := m vs in
           (r, ({| model_name := model_name w.1; vector_store := Some vs' |}, w.2)).

(** [os.path.exists(save_dir) and os.path.isfile(os.path.join(save_dir, "index.faiss"))] *)
Definition has_index_file (fs : filesystem) (save_dir : string) : bool :=
  match fs !! save_dir with
  | Some dd => bool_decide (is_Some (index_faiss dd))
  | None => false
  end.

(** [f"{func['name']}: {func['description']}. Keywords: {', '.join(func['keywords'])}"] *)
Definition description_text (func : function_meta) : string :=
  (name func ++ ": " ++ description func ++ ". Keywords: "
   ++ String.concat ", " (keywords func))%string.

Section Matcher.

(** The sentence-transformers model: a text becomes a vector of [D]
    numbers, the same for the same text. *)
Variable D : nat.
Variable model : string -> list Z.

(** The catalog [function_metadata] of the registry. *)
Variable catalog : list function_meta.

(** [encode(text)] for one string: a 1-dimensional array. *)
Definition encode_str (text : string) : np.ndarray :=
  {| np.shape := [D]; np.data := model text |}.

(** [encode(texts)] for a list: one row per text; no text gives the empty
    1-dimensional array. *)
Definition encode_list (texts : list string) : np.ndarray :=
  match texts with
  | [] => {| np.shape := [0%nat]; np.data := [] |}
  | _ => {| np.shape := [length texts; D]; np.data := concat (model <$> texts) |}
  end.

(** [initialize_vector_store(self, save_dir)] *)
Definition initialize_vector_store (save_dir : string) : M world VectorStore :=
  fun w =>
    if has_index_file w.2 save_dir then
      (do! vs := lift (load save_dir w.2) in
       do! _ := set_vector_store vs in
       mret vs) w
    else
      let texts := description_text <$> catalog in
      let embeddings := encode_list texts in
      (do! d1 := lift (py_getitem (np.shape embeddings) 1) in
       do! _ := set_vector_store (VectorStore_init d1) in
       do! _ := on_vector_store (add_items embeddings catalog) in
       do! _ := on_fs (makedirs save_dir) in
       do! vs := get_vector_store in
       do! _ := on_fs (save vs save_dir) in
       mret vs) w.

(** [find_matching_function(self, query, k)] *)
Definition find_matching_function (query : string) (k : Z)
  : M world (list function_meta) :=
  fun w =>
    (do! _ := (match vector_store w.1 with
               | None => do! _ := initialize_vector_store "vector_db" in mret ()
               | Some _ => mret ()
               end) in
     let query_embedding := encode_str query in
     do! vs := get_vector_store in
     do! matches := lift (search vs query_embedding k) in
     mret (fst <$> matches)) w.


End Matcher.

(** ** The catalog of [function_registry/functions.py] *)

Definition entry (n d : string) (kw : list string) (c : string)
    (ps : option (list string)) : function_meta :=
  {| name := n; description := d; keywords := kw; category := c; parameters := ps |}.

Definition function_metadata : list function_meta := [
  entry "open_chrome" "Opens Google Chrome web browser"
    ["chrome"; "browser"; "web"; "google"; "internet"; "open"; "launch"; "start"]
    "application_control" None;
  entry "open_calculator" "Opens the system calculator application"
    ["calculator"; "calc"; "math"; "open"; "launch"; "start"]
    "application_control" None;
  entry "open_notepad" "Opens the system text editor or notepad"
    ["notepad"; "text editor"; "editor"; "text"; "notes"; "open"; "launch"; "start"]
    "application_control" None;
  entry "open_file_explorer" "Opens the system file explorer or file manager"
    ["file explorer"; "explorer"; "file manager"; "files"; "browse"; "open"; "launch"; "start"]
    "application_control" None;
  entry "get_cpu_usage" "Returns the current CPU usage percentage"
    ["cpu"; "processor"; "usage"; "load"; "performance"; "monitoring"; "system"; "stats"]
    "system_monitoring" None;
  entry "get_memory_usage" "Returns information about RAM usage"
    ["memory"; "ram"; "usage"; "monitoring"; "system"; "performance"; "stats"]
    "system_monitoring" None;
  entry "get_disk_usage" "Returns information about disk space usage"
    ["disk"; "storage"; "drive"; "space"; "usage"; "monitoring"; "system"; "stats"]
    "system_monitoring" None;
  entry "get_battery_status" "Returns battery status information if available"
    ["battery"; "power"; "status"; "charge"; "monitoring"; "system"; "laptop"]
    "system_monitoring" None;
  entry "run_shell_command" "Executes a shell command and returns the output"
    ["shell"; "command"; "cmd"; "terminal"; "console"; "execute"; "run"]
    "command_execution" (Some ["command"]);
  entry "list_files_in_directory" "Lists all files in a specified directory"
    ["list"; "files"; "directory"; "folder"; "contents"; "ls"; "dir"]
    "command_execution" (Some ["directory"]);
  entry "get_system_info" "Returns basic system information"
    ["system"; "info"; "information"; "details"; "specs"; "specifications"; "os"; "platform"]
    "system_monitoring" None;
  entry "create_file" "Creates a new file with optional content"
    ["create"; "file"; "new"; "make"; "write"]
    "command_execution" (Some ["filename"; "content"]);
  entry "read_file" "Reads the contents of a file"
    ["read"; "file"; "content"; "open"; "view"]
    "command_execution" (Some ["filename"])
]%string.

(** ** The registry [function_mapping] and the code generator

    [function_mapping] maps a name to a function object; the code generator
    reads of it only the parameter names ([inspect.signature]), which are
    those of the [def] lines of [function_registry/functions.py]. *)

Definition function_mapping : gmap string (list string) :=
  list_to_map [
    ("open_chrome", []);
    ("open_calculator", []);
    ("open_notepad", []);
    ("open_file_explorer", []);
    ("get_cpu_usage", []);
    ("get_memory_usage", []);
    ("get_disk_usage", []);
    ("get_battery_status", []);
    ("run_shell_command", ["command"]);
    ("list_files_in_directory", ["directory"]);
    ("get_system_info", []);
    ("create_file", ["filename"; "content"]);
    ("read_file", ["filename"])
  ]%string.

(** Line feed and double quote, as they occur in the generated text. *)
Definition nl : string := String (Ascii.ascii_of_nat 10) EmptyString.
Definition dq : string := String (Ascii.ascii_of_nat 34) EmptyString.

(** [', '.join(parts)] and the like. *)
Definition join (sep : string) (parts : list string) : string :=
  String.concat sep parts.

Section CodeGenerator.

(** A parameter value sent by the caller, and its [repr]. *)
Variable pyvalue : Type.
Variable repr : pyvalue -> string.

(** A [Dict[str, Any]] in insertion order. *)
Definition pydict : Type := list (string * pyvalue).

(** [if params]: neither [None] nor the empty dict. *)
Definition truthy (params : option pydict) : bool :=
  match params with
  | Some (_ :: _) => true
  | _ => false
  end.

Definition items (params : option pydict) : pydict :=
  match params with
  | Some d => d
  | None => []
  end.

(** [{k: v for k, v in params.items() if k in param_names}] *)
Definition valid_params (param_names : list string) (params : option pydict) : pydict :=
  filter (fun kv : string * pyvalue => kv.1 ∈ param_names) (items params).

(** [", ".join([f"{k}={repr(v)}" for k, v in valid_params.items()])] *)
Definition param_str (valid : pydict) : string :=
  join ", " ((fun kv : string * pyvalue => kv.1 ++ "=" ++ repr kv.2) <$> valid)%string.

(** [CodeGenerator.generate_code(function_name, params)] *)
Definition generate_code (function_name : string) (params : option pydict) : string :=
  match function_mapping !! function_name with
  | None =>
    ("# Error: Function '" ++ function_name ++ "' not found in the registry.")%string
  | Some param_names =>
    let code :=
      ("from app.function_registry.functions import " ++ function_name ++ nl ++ nl)%string in
    let code := (code ++ "def main():" ++ nl)%string in
    let code := (code ++ "    try:" ++ nl)%string in
    let code :=
      if truthy params && negb (bool_decide (param_names = [])) then
        let valid := valid_params param_names params in
        if negb (bool_decide (valid = [])) then
          (code ++ "        result = " ++ function_name ++ "(" ++ param_str valid ++ ")" ++ nl)%string
        else
          (code ++ "        result = " ++ function_name ++ "()" ++ nl)%string
      else
        (code ++ "        result = " ++ function_name ++ "()" ++ nl)%string in
    let code :=
      (code ++ "        print(f" ++ dq ++ "Function executed successfully." ++ dq ++ ")" ++ nl)%string in
    let code :=
      (code ++ "        print(f" ++ dq ++ "Result: {result}" ++ dq ++ ")" ++ nl)%string in
    let code := (code ++ "        return result" ++ nl)%string in
    let code := (code ++ "    except Exception as e:" ++ nl)%string in
    let code :=
      (code ++ "        print(f" ++ dq ++ "Error executing function: {e}" ++ dq ++ ")" ++ nl)%string in
    let code :=
      (code ++ "        return {" ++ dq ++ "error" ++ dq ++ ": str(e)}" ++ nl ++ nl)%string in
    let code :=
      (code ++ "if __name__ == " ++ dq ++ "__main__" ++ dq ++ ":" ++ nl)%string in
    let code := (code ++ "    main()" ++ nl)%string in
    code
  end.

(** The loop of [generate_multi_function_code] over
    [zip(function_names, params_list)]. *)
Fixpoint multi_calls (pairs : list (string * option pydict)) (code : string) : string :=
  match pairs with
  | [] => code
  | (func_name, params) :: rest =>
    match function_mapping !! func_name with
    | None =>
      multi_calls rest
        (code ++ "        # Warning: Function '" ++ func_name
              ++ "' not found in the registry." ++ nl)%string
    | Some param_names =>
      let code :=
        if truthy params && negb (bool_decide (param_names = [])) then
          let valid := valid_params param_names params in
          if negb (bool_decide (valid = [])) then
            (code ++ "        results['" ++ func_name ++ "'] = " ++ func_name
                  ++ "(" ++ param_str valid ++ ")" ++ nl)%string
          else
            (code ++ "        results['" ++ func_name ++ "'] = " ++ func_name
                  ++ "()" ++ nl)%string
        else
          (code ++ "        results['" ++ func_name ++ "'] = " ++ func_name
                ++ "()" ++ nl)%string in
      let code :=
        (code ++ "        print(f" ++ dq ++ "Function '" ++ func_name
              ++ "' executed successfully." ++ dq ++ ")" ++ nl)%string in
      multi_calls rest code
    end
  end.

(** [CodeGenerator.generate_multi_function_code(function_names, params_list)].
    The list passed as [params_list] is extended in place, so the call also
    yields the caller's list as it is afterwards ([None] when the caller
    passed no list). *)
Definition generate_multi_function_code (function_names : list string)
    (params_list : option (list (option pydict)))
  : string * option (list (option pydict)) :=
  match function_names with
  | [] => ("# Error: No functions provided."%string, params_list)
  | _ =>
    let padded :=
      match params_list with
      | None => replicate (length function_names) None
      | Some l => l ++ replicate (length function_names - length l) None
      end in
    let imports :=
      (fun name => "from app.function_registry.functions import " ++ name)%string
        <$> function_names in
    let code := (join nl imports ++ nl ++ nl)%string in
    let code := (code ++ "def main():" ++ nl)%string in
    let code := (code ++ "    results = {}" ++ nl)%string in
    let code := (code ++ "    try:" ++ nl)%string in
    let code := multi_calls (zip function_names padded) code in
    let code :=
      (code ++ "        print(f" ++ dq ++ "All functions executed successfully." ++ dq ++ ")" ++ nl)%string in
    let code := (code ++ "        return results" ++ nl)%string in
    let code := (code ++ "    except Exception as e:" ++ nl)%string in
    let code :=
      (code ++ "        print(f" ++ dq ++ "Error executing functions: {e}" ++ dq ++ ")" ++ nl)%string in
    let code :=
      (code ++ "        return {" ++ dq ++ "error" ++ dq ++ ": str(e), " ++ dq
            ++ "partial_results" ++ dq ++ ": results}" ++ nl ++ nl)%string in
    let code :=
      (code ++ "if __name__ == " ++ dq ++ "__main__" ++ dq ++ ":" ++ nl)%string in
    let code := (code ++ "    main()" ++ nl)%string in
    (code,
     match params_list with
     | None => None
     | Some _ => Some padded
     end)
  end.

(** The parameters meant for the [i]-th function: none when no list was
    passed, when the list is too short, or when the entry is [None]. *)
Definition param_at (params_list : option (list (option pydict))) (i : nat)
  : option pydict :=
  match params_list with
  | None => None
  | Some l => mjoin (l !! i)
  end.

End CodeGenerator.

(** ** Chat history of [api/routes.py]

    [chat_sessions] maps a session id to the list of its entries. *)

(** [get_chat_history(session_id)]: the value under ["history"]. *)
Definition get_chat_history {entry : Type} (session_id : string)
    (chat_sessions : gmap string (list entry)) : list entry :=
  match chat_sessions !! session_id with
  | None => []
  | Some history => history
  end.

(** [clear_chat_history(session_id)]: the value under ["message"] and the
    sessions afterwards. *)
Definition clear_chat_history {entry : Type} (session_id : string)
    (chat_sessions : gmap string (list entry))
  : string * gmap string (list entry) :=
  (("Chat history cleared for session " ++ session_id)%string,
   match chat_sessions !! session_id with
   | Some _ => <[session_id := []]> chat_sessions
   | None => chat_sessions
   end).

(** ** The singleton of [rag/embeddings.py] and [execute_function]

    The module-level variable [embedding_generator] holds the one generator
    object; [get_embedding_generator] hands out that object, so what a
    caller does to it is done to the object the variable holds. *)

(** [get_embedding_generator(model_name)]: the generator returned and the
    module-level variable afterwards. *)
Definition get_embedding_generator (mname : string)
    (embedding_generator : option EmbeddingGenerator)
  : EmbeddingGenerator * option EmbeddingGenerator :=
  match embedding_generator with
  | None =>
    let created := EmbeddingGenerator_init mname in (created, Some created)
  | Some existing => (existing, embedding_generator)
  end.

Section Routes.

Variable pyvalue : Type.
Variable repr : pyvalue -> string.

(** The encoder and the catalog, as for the matcher. *)
Variable D : nat.
Variable model : string -> list Z.
Variable catalog : list function_meta.

(** What lies outside the program: calling a registered function with
    the request's parameters as keyword arguments (or with none, for an
    empty dict) either raises, with [str(e)] as given, or returns a value ([None] is
    Python's [None]); the time measured around the call; [str(e)] of an
    exception of the matcher. Loading the sentence-transformers model in the
    constructor of the generator is taken to succeed, and the calls of the
    logger, which only write log lines, are left out. *)
Variable seconds : Type.
Variable invoke : string -> pydict pyvalue -> string + option pyvalue.
Variable elapsed : string -> seconds.
Variable str_exn : exn -> string.

(** An entry of a chat history: [{"role": "user", "content": prompt}] or
    [{"role": "system", "content": {"function", "result", "error"}}]. *)
Inductive chat_entry : Type :=
  | UserEntry (content : string)
  | SystemEntry (function : string) (result : option pyvalue) (error : option string)
  | SystemMultiEntry (functions : list string)
      (results : gmap string (option pyvalue)) (errors : gmap string string).

(** The JSON body of a request to [/execute]; [None] is an absent key. *)
Record execute_request : Type := {
  prompt : option string;
  session_id : option string;
  params : option (pydict pyvalue)
}.

(** The JSON body of a request to [/multi-execute]. *)
Record multi_execute_request : Type := {
  multi_prompt : option string;
  multi_session_id : option string;
  num_functions : option Z;
  params_list : option (list (option (pydict pyvalue)))
}.

Inductive response : Type :=
  | HTTPException (status_code : nat) (detail : string)
  | ErrorBody (error : string)
  | ExecuteBody (function code : string) (result : option pyvalue)
      (error : option string) (execution_time : seconds)
  | MultiExecuteBody (functions : list string) (code : string)
      (results : gmap string (option pyvalue)) (errors : gmap string string)
      (execution_time : seconds).

(** The module-level state of the service. *)
Record server : Type := {
  chat_sessions : gmap string (list chat_entry);
  embedding_generator : option EmbeddingGenerator;
  disk : filesystem
}.


(** [not error] for [error] being [None] or a string. *)
Definition no_error (error : option string) : bool :=
  match error with
  | None => true
  | Some msg => bool_decide (msg = ""%string)
  end.

(** [chat_sessions[session_id].append(entry)] *)
Definition append_entry (sid : string) (e : chat_entry)
    (sessions : gmap string (list chat_entry)) : gmap string (list chat_entry) :=
  match sessions !! sid with
  | Some history => <[sid := history ++ [e]]> sessions
  | None => sessions
  end.

(** [execute_function(request_data)] *)
Definition execute_function (request_data : execute_request)
  : server -> response * server :=
  fun st =>
    let sid := default "default"%string (session_id request_data) in
    let ps := default [] (params request_data) in
    match prompt request_data with
    | None => (HTTPException 400 "Prompt is required", st)
    | Some p =>
      if bool_decide (p = ""%string) then (HTTPException 400 "Prompt is required", st)
      else
        let sessions :=
          match chat_sessions st !! sid with
          | None => <[sid := []]> (chat_sessions st)
          | Some _ => chat_sessions st
          end in
        let sessions := append_entry sid (UserEntry p) sessions in
        let (embedding_gen, global) :=
          get_embedding_generator "all-MiniLM-L6-v2" (embedding_generator st) in
        match find_matching_function D model catalog p 1 (embedding_gen, disk st) with
        | (inl e, (gen', disk')) =>
          (HTTPException 500 (str_exn e),
           {| chat_sessions := sessions; embedding_generator := Some gen';
              disk := disk' |})
        | (inr [], (gen', disk')) =>
          (ErrorBody "No matching function found",
           {| chat_sessions := sessions; embedding_generator := Some gen';
              disk := disk' |})
        | (inr (best_match :: _), (gen', disk')) =>
          let function_name := name best_match in
          let code := generate_code pyvalue repr function_name (Some ps) in
          let (result, error) :=
            match function_mapping !! function_name with
            | Some _ =>
              match invoke function_name ps with
              | inr value => (value, None)
              | inl msg => (None, Some msg)
              end
            | None =>
              (None, Some ("Function " ++ function_name ++ " not found in registry")%string)
            end in
          let execution_time := elapsed function_name in
          let response_content :=
            SystemEntry function_name (if no_error error then result else None) error in
          (ExecuteBody function_name code result error execution_time,
           {| chat_sessions := append_entry sid response_content sessions;
              embedding_generator := Some gen';
              disk := disk' |})
        end
    end.

(** The loop of [execute_multiple_functions] over
    [enumerate(function_names)], with the dicts [results] and [errors]. *)
Fixpoint run_functions (params_list : list (option (pydict pyvalue)))
    (enum : list (nat * string))
    (results : gmap string (option pyvalue)) (errors : gmap string string)
  : gmap string (option pyvalue) * gmap string string :=
  match enum with
  | [] => (results, errors)
  | (i, function_name) :: rest =>
    match function_mapping !! function_name with
    | Some _ =>
      (* params = params_list[i] if i < len(params_list) else {} *)
      let ps := if bool_decide (i < length params_list)%nat
                then mjoin (params_list !! i) else Some [] in
      (* if params: func with params else: func() *)
      match invoke function_name (if truthy pyvalue ps then items pyvalue ps else []) with
      | inr value => run_functions params_list rest (<[function_name := value]> results) errors
      | inl msg => run_functions params_list rest results (<[function_name := msg]> errors)
      end
    | None =>
      run_functions params_list rest results
        (<[function_name :=
             ("Function " ++ function_name ++ " not found in registry")%string]> errors)
    end
  end.

(** The time measured around the whole loop. *)
Variable elapsed_all : list string -> seconds.

(** [execute_multiple_functions(request_data)] *)
Definition execute_multiple_functions (request_data : multi_execute_request)
  : server -> response * server :=
  fun st =>
    let sid := default "default"%string (multi_session_id request_data) in
    let k := default 3 (num_functions request_data) in
    let pl := default [] (params_list request_data) in
    match multi_prompt request_data with
    | None => (HTTPException 400 "Prompt is required", st)
    | Some p =>
      if bool_decide (p = ""%string) then (HTTPException 400 "Prompt is required", st)
      else
        let sessions :=
          match chat_sessions st !! sid with
          | None => <[sid := []]> (chat_sessions st)
          | Some _ => chat_sessions st
          end in
        let sessions := append_entry sid (UserEntry p) sessions in
        let (embedding_gen, global) :=
          get_embedding_generator "all-MiniLM-L6-v2" (embedding_generator st) in
        match find_matching_function D model catalog p k (embedding_gen, disk st) with
        | (inl e, (gen', disk')) =>
          (HTTPException 500 (str_exn e),
           {| chat_sessions := sessions; embedding_generator := Some gen';
              disk := disk' |})
        | (inr [], (gen', disk')) =>
          (ErrorBody "No matching functions found",
           {| chat_sessions := sessions; embedding_generator := Some gen';
              disk := disk' |})
        | (inr matches, (gen', disk')) =>
          let function_names := name <$> matches in
          let (code, padded) :=
            generate_multi_function_code pyvalue repr function_names (Some pl) in
          let pl := default pl padded in
          let (results, errors) :=
            run_functions pl (enumerate function_names) ∅ ∅ in
          let execution_time := elapsed_all function_names in
          let response_content := SystemMultiEntry function_names results errors in
          (MultiExecuteBody function_names code results errors execution_time,
           {| chat_sessions := append_entry sid response_content sessions;
              embedding_generator := Some gen';
              disk := disk' |})
        end
    end.

End Routes.

(** * Notions used in the statements *)

(** The number of stored vectors equals the number of metadata entries. *)
Definition consistent (self : VectorStore) : Prop :=
  faiss.ntotal (index self) = length (metadata self).

(** A query the index accepts: [D] numbers, or a matrix of at least one row
    of [D] numbers (the first row is the one searched for). *)
Definition valid_query (self : VectorStore) (q : np.ndarray) : Prop :=
  np.shape q = [faiss.d (index self)]
  \/ exists n, np.shape q = [S n; faiss.d (index self)].

Definition query_row (self : VectorStore) (q : np.ndarray) : list Z :=
  take (faiss.d (index self)) (np.data q).

(** The metadata lookup of a candidate (distance, label) that passes the
    guard of the loop. *)
Definition hit (md : list function_meta) (c : Z * Z) : option (function_meta * Z) :=
  if bool_decide (0 <= c.2) then (fun m => (m, c.1)) <$> md !! Z.to_nat c.2
  else None.

(** Result [r] is the entry stored under handle [h], at its (float32,
    finite) distance to [q]. *)
Definition entry_at (self : VectorStore) (q : list Z) (h : nat)
    (r : function_meta * Z) : Prop :=
  exists v, faiss.xb (index self) !! h = Some v
            /\ metadata self !! h = Some r.1
            /\ faiss.finite_dist q v = Some r.2.



(** Every stored vector is at a finite float32 distance from the query. *)
Definition all_finite (vs : list (list Z)) (q : list Z) : Prop :=
  Forall (fun v => is_Some (faiss.finite_dist q v)) vs.

(** The rows of the matrix the matcher adds for a catalog: the embeddings of
    the synthesized texts, cut in rows of width [D]. *)
Definition catalog_rows (D : nat) (model : string -> list Z)
    (catalog : list function_meta) : list (list Z) :=
  np.rows (length catalog) D (concat (model <$> (description_text <$> catalog))).

(** A store made by [VectorStore(D)] and a sequence of [add_items] calls. *)
Fixpoint add_all (batches : list (np.ndarray * list function_meta))
  : M VectorStore () :=
  match batches with
  | [] => mret ()
  | (e, m) :: rest => do! _ := add_items e m in add_all rest
  end.

Definition readable {A} (f : option (file A)) : Prop :=
  exists a, f = Some (Content a).

(** The three files of a saved store are there and can be read back. *)
Definition artifacts_readable (fs : filesystem) (dir : string) : Prop :=
  readable (fs !! dir ≫= config_pkl)
  /\ readable (fs !! dir ≫= index_faiss)
  /\ readable (fs !! dir ≫= metadata_pkl).







(** A store of two one-dimensional vectors, [0] and [2^65]: the square of
    the second is beyond float32. *)
Definition far_store : VectorStore :=
  (add_items {| np.shape := [2%nat; 1%nat]; np.data := [0; 2 ^ 65] |}
     (take 2 function_metadata) (VectorStore_init 1)).2.

(** Sample data: three vectors of dimension 2 added in two calls, the
    second and the third at the same distance from the origin. *)
Definition sample_batches : list (np.ndarray * list function_meta) :=
  [ ({| np.shape := [2%nat; 2%nat]; np.data := [0; 0; 3; 4] |},
     take 2 function_metadata);
    ({| np.shape := [1%nat; 2%nat]; np.data := [0; 5] |},
     take 1 (drop 2 function_metadata)) ].

Definition sample_store : VectorStore :=
  (add_all sample_batches (VectorStore_init 2)).2.

Definition origin : np.ndarray := {| np.shape := [2%nat]; np.data := [0; 0] |}.

(** A text encoder for examples: the length of the text and its parity. *)
Definition toy_model (text : string) : list Z :=
  [Z.of_nat (String.length text); Z.of_nat (String.length text) mod 2].

(** Sample data for the code generator and the endpoints: parameter values
    are strings, printed between single quotes; every registered function
    returns its first argument, or [None] when called without arguments. *)
Definition quote (s : string) : string := ("'" ++ s ++ "'")%string.

Definition sample_invoke (function_name : string) (ps : pydict string)
  : string + option string :=
  match ps with
  | [] => inr None
  | (_, v) :: _ => inr (Some v)
  end.

Definition fresh_server : server string :=
  {| chat_sessions := ∅; embedding_generator := None; disk := ∅ |}.

Definition sample_execute : execute_request string -> server string
                            -> response string nat * server string :=
  execute_function string quote 2 toy_model function_metadata nat sample_invoke
    (fun _ => 0%nat) (fun _ => ""%string).

Definition sample_multi_execute : multi_execute_request string -> server string
                                  -> response string nat * server string :=
  execute_multiple_functions string quote 2 toy_model function_metadata nat
    sample_invoke (fun _ => ""%string) (fun _ => 0%nat).

Definition sample_request : execute_request string :=
  {| prompt := Some "open the calculator"%string; session_id := Some "s1"%string;
     params := None |}.

Definition sample_multi_request : multi_execute_request string :=
  {| multi_prompt := Some "list the files"%string;
     multi_session_id := Some "s1"%string;
     num_functions := Some 2;
     params_list := Some [Some [("directory", "/tmp")]]%string |}.

(** A directory in which only an unreadable [index.faiss] exists. *)
Definition garbage_index_fs : filesystem :=
  {[ "vector_db"%string :=
       {| index_faiss := Some Garbage; metadata_pkl := None; config_pkl := None |} ]}.

(** * Lemmas and theorems *)

(** ** Python indexing *)

Lemma py_getitem_nat {A} (l : list A) (i : nat) (a : A) :
  l !! i = Some a -> py_getitem l (Z.of_nat i) = inr a.
Proof.
  intros Hl. pose proof (lookup_lt_Some _ _ _ Hl) as Hlt.
  unfold py_getitem. rewrite bool_decide_eq_true_2 by lia.
  by rewrite Nat2Z.id, Hl.
Qed.

Lemma py_getitem_in_range {A} (l : list A) (i : Z) :
  0 <= i < Z.of_nat (length l) ->
  exists a, l !! Z.to_nat i = Some a /\ py_getitem l i = inr a.
Proof.
  intros Hi. destruct (lookup_lt_is_Some_2 l (Z.to_nat i)) as [a Ha]; [lia|].
  exists a. split; [done|].
  rewrite <- (Z2Nat.id i) by lia. by apply py_getitem_nat.
Qed.

(** ** numpy *)

Lemma length_rows n d xs : length (np.rows n d xs) = n.
Proof. revert xs. induction n as [|n IH]; intros xs; simpl; [done|]. by rewrite IH. Qed.


(** ** The order of the results *)

#[global] Instance nearer_trans : Transitive faiss.nearer.
Proof. intros [a1 a2] [b1 b2] [c1 c2]. unfold faiss.nearer. simpl. lia. Qed.

#[global] Instance nearer_total : Total faiss.nearer.
Proof. intros [a1 a2] [b1 b2]. unfold faiss.nearer. simpl. lia. Qed.

#[global] Instance nearer_antisymm : AntiSymm (=) faiss.nearer.
Proof.
  intros [a1 a2] [b1 b2]. unfold faiss.nearer. simpl. intros H1 H2.
  f_equal; lia.
Qed.


Lemma length_omap_all {A B} (f : A -> option B) (l : list A) :
  Forall (fun x => is_Some (f x)) l -> length (omap f l) = length l.
Proof.
  induction 1 as [|x l [y Hy] _ IH]; csimpl; [done|].
  rewrite Hy. csimpl. by rewrite IH.
Qed.

Lemma elem_of_scored vs q c :
  c ∈ faiss.scored vs q <->
  exists i v dv, vs !! i = Some v /\ faiss.finite_dist q v = Some dv
                 /\ c = (dv, Z.of_nat i).
Proof.
  unfold faiss.scored. rewrite list_elem_of_omap. split.
  - intros (o & Ho & Hc). simpl in Hc. subst o.
    apply elem_of_lookup_imap in Ho as (i & v & Hcand & Hv).
    unfold faiss.candidate in Hcand.
    destruct (faiss.finite_dist q v) as [dv|] eqn:Hd; [|done].
    simpl in Hcand. injection Hcand as ->. by exists i, v, dv.
  - intros (i & v & dv & Hv & Hd & ->). exists (Some (dv, Z.of_nat i)).
    split; [|done]. apply elem_of_lookup_imap. exists i, v.
    split; [|done]. unfold faiss.candidate. by rewrite Hd.
Qed.

Lemma labels_sublist (q : list Z) (vs : list (list Z)) (j : nat) :
  (fun c : Z * Z => Z.to_nat c.2)
    <$> omap id (imap (fun i => faiss.candidate q (j + i)) vs)
  `sublist_of` seq j (length vs).
Proof.
  revert j. induction vs as [|v vs IH]; intros j; [done|].
  rewrite imap_cons. cbn [omap list_omap length seq].
  assert (Htail : (fun c : Z * Z => Z.to_nat c.2)
            <$> omap id (imap ((fun i => faiss.candidate q (j + i)) ∘ S) vs)
          `sublist_of` seq (S j) (length vs)).
  { specialize (IH (S j)).
    erewrite imap_ext; [exact IH|]. intros i x _. simpl.
    by replace (j + S i)%nat with (S (j + i))%nat by lia. }
  unfold faiss.candidate at 1. rewrite Nat.add_0_r.
  destruct (faiss.finite_dist q v) as [dv|]; simpl.
  - rewrite Nat2Z.id. by apply sublist_skip.
  - by apply sublist_cons.
Qed.

Lemma scored_labels_sublist vs q :
  (fun c : Z * Z => Z.to_nat c.2) <$> faiss.scored vs q
  `sublist_of` seq 0 (length vs).
Proof. apply (labels_sublist q vs 0). Qed.

Lemma scored_labels_NoDup vs q :
  NoDup ((fun c : Z * Z => Z.to_nat c.2) <$> faiss.scored vs q).
Proof.
  eapply sublist_NoDup; [apply NoDup_seq|apply scored_labels_sublist].
Qed.


Lemma length_scored vs q :
  all_finite vs q -> length (faiss.scored vs q) = length vs.
Proof.
  intros Hall. unfold faiss.scored.
  rewrite length_omap_all; [by rewrite length_imap|].
  apply Forall_forall. intros o Ho.
  apply elem_of_lookup_imap in Ho as (i & v & -> & Hv).
  unfold all_finite in Hall. rewrite Forall_forall in Hall.
  destruct (Hall v) as [dv Hd]; [by eapply list_elem_of_lookup_2|].
  unfold faiss.candidate. rewrite Hd. by eexists.
Qed.

Lemma elem_of_top vs q k c :
  c ∈ faiss.top vs q k ->
  exists i v dv, vs !! i = Some v /\ faiss.finite_dist q v = Some dv
                 /\ c = (dv, Z.of_nat i).
Proof.
  intros Hc. apply elem_of_scored.
  rewrite <- (merge_sort_Permutation faiss.nearer).
  apply elem_of_take in Hc as (i & Hi & _).
  by eapply list_elem_of_lookup_2.
Qed.


Lemma length_top_scored vs q k :
  length (faiss.top vs q k) = (k `min` length (faiss.scored vs q))%nat.
Proof.
  unfold faiss.top. rewrite length_take.
  by rewrite (Permutation_length (merge_sort_Permutation _ _)).
Qed.


Lemma length_top vs q k :
  all_finite vs q -> length (faiss.top vs q k) = (k `min` length vs)%nat.
Proof. intros Hall. by rewrite length_top_scored, length_scored. Qed.


(** ** The loop over the labels *)

Lemma py_getitem_first {A} (x : A) (l : list A) : py_getitem (x :: l) 0 = inr x.
Proof.
  unfold py_getitem. rewrite bool_decide_eq_true_2; [done|].
  simpl length. lia.
Qed.

Lemma hit_pad md (dv : Z) : hit md (dv, -1) = None.
Proof. reflexivity. Qed.

Lemma hit_Some md (dv idx : Z) m :
  0 <= idx -> md !! Z.to_nat idx = Some m -> hit md (dv, idx) = Some (m, dv).
Proof.
  intros Hpos Hm. unfold hit. cbn [fst snd].
  by rewrite bool_decide_eq_true_2, Hm by done.
Qed.

Lemma hit_beyond md (dv idx : Z) :
  Z.of_nat (length md) <= idx -> hit md (dv, idx) = None.
Proof.
  intros Hge. unfold hit. cbn [fst snd].
  rewrite bool_decide_eq_true_2 by lia.
  by rewrite lookup_ge_None_2 by lia.
Qed.

Lemma omap_hit_pads md n : omap (hit md) (replicate n (faiss.FLT_MAX, -1)) = [].
Proof.
  induction n as [|n IH]; [done|].
  change (replicate (S n) (faiss.FLT_MAX, -1))
    with ((faiss.FLT_MAX, -1) :: replicate n (faiss.FLT_MAX, -1)).
  cbn [omap list_omap]. by rewrite hit_pad.
Qed.

Lemma search_loop_spec md (cs pre : list (Z * Z)) drest results :
  Forall (fun c => c.2 = -1 \/ 0 <= c.2) cs ->
  search_loop md ((fst <$> (pre ++ cs)) :: drest)
    (imap (fun i x => ((length pre + i)%nat, x)) (snd <$> cs)) results
  = inr (results ++ omap (hit md) cs).
Proof.
  intros Hcs. revert pre results.
  induction Hcs as [|[dv idx] cs Hc _ IH]; intros pre results.
  { simpl. by rewrite app_nil_r. }
  assert (Hnext : forall rs,
    search_loop md ((fst <$> (pre ++ (dv, idx) :: cs)) :: drest)
      (imap ((fun i x => ((length pre + i)%nat, x)) ∘ S) (snd <$> cs)) rs
    = inr (rs ++ omap (hit md) cs)).
  { intros rs. specialize (IH (pre ++ [(dv, idx)]) rs).
    rewrite <- app_assoc in IH. simpl in IH. rewrite <- IH. f_equal.
    apply imap_ext. intros i x _. simpl. rewrite length_app. simpl.
    f_equal. lia. }
  rewrite fmap_cons, imap_cons. simpl in Hc.
  cbn [search_loop omap list_omap snd fst].
  destruct (decide (0 <= idx)) as [Hpos|Hneg].
  - rewrite (bool_decide_eq_true_2 (idx <> -1)) by lia.
    destruct (decide (idx < Z.of_nat (length md))) as [Hlt|Hge].
    + rewrite (bool_decide_eq_true_2 _ Hlt). cbn [andb].
      destruct (py_getitem_in_range md idx) as (m & Hm & ->); [lia|].
      cbn [bind]. rewrite py_getitem_first. cbn [bind].
      rewrite (py_getitem_nat _ _ dv).
      2:{ rewrite list_lookup_fmap, lookup_app_r by lia.
          by replace (length pre + 0 - length pre)%nat with 0%nat by lia. }
      cbn [bind]. rewrite Hnext, (hit_Some _ _ _ m) by done.
      by rewrite <- app_assoc.
    + rewrite (bool_decide_eq_false_2 _ Hge). cbn [andb].
      rewrite Hnext. by rewrite hit_beyond by lia.
  - assert (idx = -1) as -> by lia.
    rewrite (bool_decide_eq_false_2 (-1 <> -1)) by lia. cbn [andb].
    rewrite hit_pad. apply Hnext.
Qed.

Lemma knn_labels vs q k :
  Forall (fun c : Z * Z => c.2 = -1 \/ 0 <= c.2) (faiss.knn vs q k).
Proof.
  unfold faiss.knn. apply Forall_app. split.
  - apply Forall_forall. intros c Hc.
    apply elem_of_top in Hc as (i & v & dv & _ & _ & ->). simpl. lia.
  - apply Forall_replicate. simpl. lia.
Qed.

(** What [search] computes on a query the index accepts: the metadata of the
    [k] nearest candidates whose handle has a metadata entry. *)
Lemma search_valid self q k :
  valid_query self q -> 0 < k ->
  search self q k
  = inr (omap (hit (metadata self))
           (faiss.top (faiss.xb (index self)) (query_row self q) (Z.to_nat k))).
Proof.
  intros Hq Hk. unfold search.
  set (q' := if bool_decide (np.ndim q = 1%nat) then np.reshape_1_m1 q else q).
  assert (exists n, np.shape q' = [S n; faiss.d (index self)]
                    /\ np.data q' = np.data q) as (n & Hshape & Hdata).
  { subst q'. destruct Hq as [Hq|[n Hq]]; unfold np.ndim; rewrite Hq; simpl.
    - exists 0%nat. unfold np.reshape_1_m1, np.size. rewrite Hq. simpl.
      by rewrite Nat.mul_1_r.
    - by exists n. }
  unfold faiss.search, np.unpack2. rewrite Hshape. cbn [ret bind].
  rewrite bool_decide_eq_true_2 by done. cbn [negb].
  rewrite bool_decide_eq_true_2 by lia. cbn [negb bind ret].
  cbn [np.rows fmap list_fmap]. rewrite py_getitem_first. cbn [bind].
  rewrite Hdata. fold (query_row self q).
  pose proof (search_loop_spec (metadata self)
    (faiss.knn (faiss.xb (index self)) (query_row self q) (Z.to_nat k)) []
    ((fun r : list (Z * Z) => fst <$> r) <$>
       ((fun q0 => faiss.knn (faiss.xb (index self)) q0 (Z.to_nat k)) <$>
          np.rows n (faiss.d (index self))
            (drop (faiss.d (index self)) (np.data q))))
    [] (knn_labels _ _ _)) as Hloop.
  simpl in Hloop. unfold enumerate. 
  etransitivity; [exact Hloop|]. f_equal.
  unfold faiss.knn. by rewrite omap_app, omap_hit_pads, app_nil_r.
Qed.

Lemma hit_stored self q k c :
  consistent self ->
  c ∈ faiss.top (faiss.xb (index self)) q k ->
  exists i v m dv, c = (dv, Z.of_nat i)
                /\ faiss.xb (index self) !! i = Some v
                /\ faiss.finite_dist q v = Some dv
                /\ metadata self !! i = Some m
                /\ hit (metadata self) c = Some (m, dv).
Proof.
  intros Hcons Hc. apply elem_of_top in Hc as (i & v & dv & Hv & Hd & ->).
  destruct (lookup_lt_is_Some_2 (metadata self) i) as [m Hm].
  { rewrite <- Hcons. by eapply lookup_lt_Some. }
  exists i, v, m, dv. repeat split; try done.
  apply hit_Some; [lia|]. by rewrite Nat2Z.id.
Qed.

(** ** Guarded metadata lookup *)

Lemma guarded_hits md (cs : list (Z * Z)) :
  Forall (fun c => c.2 = -1 \/ 0 <= c.2) cs ->
  Forall2 (fun c r => py_getitem md c.2 = inr r.1 /\ r.2 = c.1)
    (filter (fun c : Z * Z => c.2 <> -1 /\ c.2 < Z.of_nat (length md)) cs)
    (omap (hit md) cs).
Proof.
  induction 1 as [|[dv idx] cs Hc _ IH]; [constructor|].
  simpl in Hc. rewrite filter_cons. cbn [omap list_omap].
  destruct (decide (idx <> -1 /\ idx < Z.of_nat (length md))) as [[Hn Hlt]|Hno].
  - rewrite decide_True by done.
    destruct (py_getitem_in_range md idx) as (m & Hm & Hget); [lia|].
    rewrite (hit_Some _ _ _ m) by (done || lia).
    constructor; [split; [exact Hget|done]|exact IH].
  - rewrite decide_False by done.
    destruct (decide (idx = -1)) as [->|Hne]; [by rewrite hit_pad|].
    rewrite hit_beyond by lia. done.
Qed.


Lemma top_labels_NoDup vs q k :
  NoDup ((fun c : Z * Z => Z.to_nat c.2) <$> faiss.top vs q k).
Proof.
  unfold faiss.top. rewrite fmap_take.
  eapply sublist_NoDup; [|apply sublist_take].
  rewrite (merge_sort_Permutation faiss.nearer).
  apply scored_labels_NoDup.
Qed.


(** ** Length of the answer *)

(** C6, as stated, fails: [k = 5] against a store of two entries, one of
    them at an infinite float32 distance from the query, gives one result. *)
Lemma search_two_entries_one_result :
  consistent far_store
  /\ faiss.ntotal (index far_store) = 2%nat
  /\ exists results,
       search far_store {| np.shape := [1%nat]; np.data := [0] |} 5 = inr results
       /\ length results = 1%nat.
Proof.
  split; [reflexivity|]. split; [reflexivity|].
  eexists. split; [vm_compute; reflexivity|reflexivity].
Qed.


(** C9. [search] never looks up metadata out of bounds: on every store, also
    one holding more vectors than metadata entries, the call succeeds, and
    its results are, in order, the metadata found under exactly those raw
    labels of the index that are not -1 and below [len(self.metadata)]; the
    other labels are dropped. *)
Theorem search_lookup_in_bounds self q k :
  valid_query self q -> 0 < k ->
  exists results handles,
    search self q k = inr results
    /\ handles = filter (fun c : Z * Z =>
                           c.2 <> -1 /\ c.2 < Z.of_nat (length (metadata self)))
                   (faiss.knn (faiss.xb (index self)) (query_row self q) (Z.to_nat k))
    /\ Forall (fun c : Z * Z => c.2 <> -1 /\ 0 <= c.2 < Z.of_nat (length (metadata self)))
         handles
    /\ Forall2 (fun c r => py_getitem (metadata self) c.2 = inr r.1 /\ r.2 = c.1)
         handles results.
Proof.
  intros Hq Hk. eexists _, _. split; [by apply search_valid|].
  split; [reflexivity|]. split.
  - apply Forall_forall. intros c Hc. apply list_elem_of_filter in Hc as [[Hn Hlt] Hc].
    pose proof (knn_labels (faiss.xb (index self)) (query_row self q) (Z.to_nat k)) as Hl.
    rewrite Forall_forall in Hl. specialize (Hl c Hc). lia.
  - replace (omap (hit (metadata self)) (faiss.top _ _ _))
      with (omap (hit (metadata self))
              (faiss.knn (faiss.xb (index self)) (query_row self q) (Z.to_nat k))).
    + apply guarded_hits, knn_labels.
    + unfold faiss.knn. by rewrite omap_app, omap_hit_pads, app_nil_r.
Qed.

(** ** Shape of the query *)

(** C10. A 1-dimensional query of [D] numbers and the 1-by-[D] matrix with
    the same numbers give the same outcome of [search], errors included. *)
Theorem search_query_shape_irrelevant self (D : nat) (xs : list Z) k :
  search self {| np.shape := [D]; np.data := xs |} k
  = search self {| np.shape := [1%nat; D]; np.data := xs |} k.
Proof.
  unfold search, np.ndim, np.reshape_1_m1, np.size. simpl.
  by rewrite Nat.mul_1_r.
Qed.

(** ** Non-positive [k] *)

(** C5. For every store and every [k <= 0], [search] raises; for a query the
    index accepts the exception is the assertion [k > 0] of the index, and
    the outcome does not depend on the stored vectors or metadata: the call
    is rejected before any distance is computed. *)
Theorem search_rejects_nonpositive_k self q k :
  k <= 0 ->
  fails (search self q k)
  /\ (valid_query self q -> search self q k = inl AssertionError)
  /\ (forall other, faiss.d (index other) = faiss.d (index self) ->
        search other q k = search self q k).
Proof.
  intros Hk.
  assert (Hix : forall s x, fails (faiss.search (index s) x k)
          /\ (forall n, np.shape x = [n; faiss.d (index s)] ->
                faiss.search (index s) x k = inl AssertionError)
          /\ (forall o, faiss.d (index o) = faiss.d (index s) ->
                faiss.search (index o) x k = faiss.search (index s) x k)).
  { intros s x. unfold faiss.search, np.unpack2.
    destruct (np.shape x) as [|n [|dx [|? ?]]]; cbn [bind raise ret];
      try (split; [by eexists|split; [done|done]]).
    rewrite (bool_decide_eq_false_2 (k > 0)) by lia. cbn [negb].
    split; [|split].
    - destruct (negb (bool_decide (dx = faiss.d (index s)))); by eexists.
    - intros n' [= <- ->]. by rewrite bool_decide_eq_true_2.
    - intros o ->. by destruct (negb (bool_decide (dx = faiss.d (index s)))). }
  unfold search.
  set (q' := if bool_decide (np.ndim q = 1%nat) then np.reshape_1_m1 q else q).
  destruct (Hix self q') as (Hfail & Hassert & Hsame).
  split; [|split].
  - destruct Hfail as [e ->]. by exists e.
  - intros Hq. rewrite (Hassert (match np.shape q with [_] => 1%nat | n :: _ => n | [] => 0%nat end)); [done|].
    subst q'. destruct Hq as [Hq|[n Hq]]; unfold np.ndim; rewrite Hq; simpl.
    + unfold np.size. rewrite Hq. simpl. by rewrite Nat.mul_1_r.
    + done.
  - intros other Hd. rewrite (Hsame other Hd).
    by destruct Hfail as [e ->].
Qed.

(** ** Adding entries *)

Lemma add_items_inv e m self r self' :
  add_items e m self = (r, self') ->
  (r = inr () /\ exists n,
      np.shape e = [n; faiss.d (index self)] /\ length m = n
      /\ self' = {| dimension := dimension self;
                    index := {| faiss.d := faiss.d (index self);
                                faiss.xb := faiss.xb (index self)
                                            ++ np.rows n (faiss.d (index self)) (np.data e) |};
                    metadata := metadata self ++ m |})
  \/ (fails r /\ self' = self).
Proof.
  unfold add_items, np.len, faiss.add, np.unpack2.
  destruct (np.shape e) as [|n [|dx [|? ?]]] eqn:Hs; cbn [bind raise ret];
    try (intros [= <- <-]; right; split; [by eexists|done]);
    destruct (bool_decide_reflect (n = length m)) as [Hn|Hn]; cbn [negb];
    try (intros [= <- <-]; right; split; [by eexists|done]).
  destruct (bool_decide_reflect (dx = faiss.d (index self))) as [->|Hd];
    intros [= <- <-].
  - left. split; [done|]. by exists n.
  - right. split; [by eexists|done].
Qed.



(** ** Complete, ordered answers *)




(** C1, as stated, fails: a store built by one [add_items] call holds two
    entries, and [search] with [k = 2] returns only one of them, because the
    other is at an infinite float32 distance from the query. *)
Lemma search_misses_entry_at_infinite_distance :
  add_all [({| np.shape := [2%nat; 1%nat]; np.data := [0; 2 ^ 65] |},
            take 2 function_metadata)] (VectorStore_init 1)
  = (inr (), far_store)
  /\ Z.of_nat (faiss.ntotal (index far_store)) <= 2
  /\ exists results,
       search far_store {| np.shape := [1%nat]; np.data := [0] |} 2 = inr results
       /\ length results = 1%nat.
Proof.
  split; [reflexivity|]. split; [by vm_compute|].
  eexists. split; [vm_compute; reflexivity|reflexivity].
Qed.


(** C4. When [len(embeddings)] differs from [len(metadata_list)],
    [add_items] raises [ValueError] and the store is exactly what it was;
    when the lengths agree (and the rows have the width of the index) the
    call succeeds and rows and metadata are appended in the same order, row
    [i] under the handle at which metadata [i] is stored. *)
Theorem add_items_all_or_nothing self e m n :
  np.len e = inr n ->
  (n <> length m -> add_items e m self = (inl ValueError, self))
  /\ (n = length m -> np.shape e = [n; faiss.d (index self)] ->
      exists self',
        add_items e m self = (inr (), self')
        /\ dimension self' = dimension self
        /\ faiss.d (index self') = faiss.d (index self)
        /\ faiss.xb (index self')
           = faiss.xb (index self) ++ np.rows n (faiss.d (index self)) (np.data e)
        /\ metadata self' = metadata self ++ m
        /\ length (np.rows n (faiss.d (index self)) (np.data e)) = length m).
Proof.
  intros Hlen. split.
  - intros Hne. unfold add_items. rewrite Hlen.
    by rewrite bool_decide_eq_false_2.
  - intros Heq Hshape. unfold add_items, faiss.add, np.unpack2.
    rewrite Hlen, Hshape. cbn [bind ret].
    rewrite !bool_decide_eq_true_2 by done. cbn [negb].
    eexists. split; [reflexivity|]. simpl. rewrite length_rows. done.
Qed.

(** ** Saving and loading *)

Lemma save_spec self dir fs :
  exists fs',
    save self dir fs = (inr (), fs')
    /\ fs' !! dir = Some {| index_faiss := Some (Content (index self));
                            metadata_pkl := Some (Content (metadata self));
                            config_pkl := Some (Content (dimension self)) |}
    /\ forall other, other <> dir -> fs' !! other = fs !! other.
Proof.
  unfold save, mbind, makedirs, write_index, dump_metadata, dump_config.
  destruct (fs !! dir) as [dd|] eqn:Hdir;
    rewrite ?lookup_insert_eq, ?Hdir; cbn;
    rewrite ?lookup_insert_eq; cbn; rewrite ?lookup_insert_eq; cbn;
    eexists; (split; [reflexivity|]); (split; [by rewrite lookup_insert_eq|]);
    intros other Hne; by rewrite !lookup_insert_ne.
Qed.

Lemma load_spec dir fs ix md dim :
  fs !! dir ≫= index_faiss = Some (Content ix) ->
  fs !! dir ≫= metadata_pkl = Some (Content md) ->
  fs !! dir ≫= config_pkl = Some (Content dim) ->
  load dir fs = inr {| dimension := dim; index := ix; metadata := md |}.
Proof.
  intros Hix Hmd Hc. unfold load, read_index. by rewrite Hix, Hmd, Hc.
Qed.

(** C2. Saving a store to a directory and loading that directory gives back
    a store with the same dimension, the same metadata in the same order and
    the same index, hence the same outcome of [search] for every query and
    every [k] (distances are equal, not only close). *)
Theorem save_load_round_trip self dir fs :
  exists fs' loaded,
    save self dir fs = (inr (), fs')
    /\ load dir fs' = inr loaded
    /\ dimension loaded = dimension self
    /\ metadata loaded = metadata self
    /\ index loaded = index self
    /\ forall q k, search loaded q k = search self q k.
Proof.
  destruct (save_spec self dir fs) as (fs' & Hsave & Hdir & _).
  exists fs', self. split; [done|]. split; [|done].
  rewrite (load_spec dir fs' (index self) (metadata self) (dimension self));
    try (by rewrite Hdir).
  by destruct self.
Qed.



(** ** The invariant of the store *)



(** ** The matcher *)

Section MatcherFacts.

Variable D : nat.
Variable model : string -> list Z.
Variable catalog : list function_meta.

Let find := find_matching_function D model catalog.
Let init := initialize_vector_store D model catalog.






Lemma encode_list_nonempty texts :
  texts <> [] ->
  encode_list D model texts
  = {| np.shape := [length texts; D]; np.data := concat (model <$> texts) |}.
Proof. by destruct texts. Qed.

Hypothesis model_dim : forall text, length (model text) = D.


End MatcherFacts.


(** * Worked examples *)

Example py_getitem_last : py_getitem [10; 20; 30] (-1) = inr 30.
Proof. reflexivity. Qed.

Example py_getitem_out_of_range : py_getitem [10; 20; 30] 3 = inl IndexError.
Proof. reflexivity. Qed.

Example rows_of_matrix : np.rows 2 3 [1; 2; 3; 4; 5; 6] = [[1; 2; 3]; [4; 5; 6]].
Proof. reflexivity. Qed.

Example description_text_open_calculator :
  description_text <$> function_metadata !! 1%nat
  = Some "open_calculator: Opens the system calculator application. Keywords: calculator, calc, math, open, launch, start"%string.
Proof. reflexivity. Qed.

Example sample_store_contents :
  faiss.xb (index sample_store) = [[0; 0]; [3; 4]; [0; 5]]
  /\ name <$> metadata sample_store
     = ["open_chrome"; "open_calculator"; "open_notepad"]%string.
Proof. split; reflexivity. Qed.

(** Nearest first; the two entries at distance 25 in insertion order. *)
Example search_sample_ties :
  exists rs,
    search sample_store origin 5 = inr rs
    /\ map (fun r : function_meta * Z => (name r.1, r.2)) rs
       = [("open_chrome", 0); ("open_calculator", 25); ("open_notepad", 25)]%string.
Proof. eexists. split; [vm_compute; reflexivity|reflexivity]. Qed.

Example search_sample_top1 :
  exists rs,
    search sample_store {| np.shape := [1%nat; 2%nat]; np.data := [1; 5] |} 1 = inr rs
    /\ map (fun r : function_meta * Z => (name r.1, r.2)) rs
       = [("open_notepad", 1)]%string.
Proof. eexists. split; [vm_compute; reflexivity|reflexivity]. Qed.

Example search_wrong_width :
  search sample_store {| np.shape := [3%nat]; np.data := [0; 0; 0] |} 1
  = inl AssertionError.
Proof. reflexivity. Qed.

Example search_no_query_row :
  search sample_store {| np.shape := [0%nat; 2%nat]; np.data := [] |} 1
  = inl IndexError.
Proof. reflexivity. Qed.

Example add_items_wrong_width :
  add_items {| np.shape := [1%nat; 3%nat]; np.data := [1; 2; 3] |}
    (take 1 function_metadata) sample_store
  = (inl AssertionError, sample_store).
Proof. reflexivity. Qed.

(** * The theorems at concrete inputs *)


Lemma add_items_all_or_nothing_witness :
  add_items {| np.shape := [2%nat; 2%nat]; np.data := [1; 2; 3; 4] |}
    (take 1 function_metadata) sample_store
  = (inl ValueError, sample_store)
  /\ exists self',
       add_items {| np.shape := [2%nat; 2%nat]; np.data := [1; 2; 3; 4] |}
         (take 2 function_metadata) sample_store = (inr (), self')
       /\ faiss.xb (index self') = faiss.xb (index sample_store) ++ [[1; 2]; [3; 4]]
       /\ metadata self' = metadata sample_store ++ take 2 function_metadata.
Proof.
  split.
  - apply (add_items_all_or_nothing sample_store
             {| np.shape := [2%nat; 2%nat]; np.data := [1; 2; 3; 4] |}
             (take 1 function_metadata) 2); [reflexivity|simpl; lia].
  - destruct (add_items_all_or_nothing sample_store
                {| np.shape := [2%nat; 2%nat]; np.data := [1; 2; 3; 4] |}
                (take 2 function_metadata) 2 eq_refl) as [_ Hok].
    destruct (Hok eq_refl eq_refl) as (self' & Hadd & _ & _ & Hxb & Hmd & _).
    exists self'. split; [exact Hadd|]. split; [exact Hxb|exact Hmd].
Defined.

Lemma search_rejects_nonpositive_k_witness :
  search sample_store origin 0 = inl AssertionError.
Proof.
  destruct (search_rejects_nonpositive_k sample_store origin 0) as (_ & Hq & _);
    [lia|].
  apply Hq. left. reflexivity.
Defined.


Lemma search_lookup_in_bounds_witness :
  exists results,
    search {| dimension := 2; index := index sample_store;
              metadata := take 1 function_metadata |} origin 3 = inr results
    /\ (length results <= 1)%nat.
Proof.
  destruct (search_lookup_in_bounds
              {| dimension := 2; index := index sample_store;
                 metadata := take 1 function_metadata |} origin 3)
    as (results & handles & Hs & Hh & _ & Hres); [left; reflexivity|lia|].
  exists results. split; [exact Hs|].
  rewrite <- (Forall2_length _ _ _ Hres), Hh. vm_compute. lia.
Defined.




(** * Further properties of the vector store *)

Lemma ranked_hits_of_top self q k (l : list (Z * Z)) :
  consistent self ->
  Forall (fun c => c ∈ faiss.top (faiss.xb (index self)) q k) l ->
  Forall2 (entry_at self q) ((fun c : Z * Z => Z.to_nat c.2) <$> l)
    (omap (hit (metadata self)) l)
  /\ zip (snd <$> omap (hit (metadata self)) l)
         (Z.of_nat <$> ((fun c : Z * Z => Z.to_nat c.2) <$> l)) = l.
Proof.
  intros Hcons.
  induction 1 as [|c l Hc _ [IH1 IH2]]; [by split; [constructor|]|].
  destruct (hit_stored _ _ _ _ Hcons Hc) as (i & v & m & dv & -> & Hv & Hd & Hm & Hhit).
  csimpl. rewrite Hhit. csimpl. rewrite Nat2Z.id. split.
  - constructor; [|done]. by exists v.
  - by rewrite IH2.
Qed.

Lemma hits_all_found self q k :
  consistent self ->
  Forall (fun c => is_Some (hit (metadata self) c))
    (faiss.top (faiss.xb (index self)) q k).
Proof.
  intros Hcons. apply Forall_forall. intros c Hc.
  destruct (hit_stored _ _ _ _ Hcons Hc) as (i & v & m & dv & _ & _ & _ & _ & ->).
  by eexists.
Qed.


Lemma omap_take_all {A B} (f : A -> option B) (l : list A) (n : nat) :
  Forall (fun x => is_Some (f x)) l ->
  omap f (take n l) = take n (omap f l).
Proof.
  intros Hall. revert n.
  induction Hall as [|x l [y Hy] _ IH]; intros n.
  - by destruct n.
  - destruct n as [|n]; csimpl; rewrite Hy; [done|].
    csimpl. by rewrite IH.
Qed.

(** X2. On such a store the answer for a smaller [k] is the beginning of
    the answer for a larger one: asking for more results never changes or
    reorders the first ones. *)
Theorem search_smaller_k_is_prefix self q k k' :
  consistent self -> valid_query self q -> 0 < k -> k <= k' ->
  exists results results',
    search self q k = inr results
    /\ search self q k' = inr results'
    /\ results = take (Z.to_nat k) results'.
Proof.
  intros Hcons Hq Hk Hk'.
  rewrite (search_valid _ _ _ Hq Hk), (search_valid self q k') by (done || lia).
  eexists _, _. split; [done|]. split; [done|].
  rewrite <- omap_take_all by by apply hits_all_found.
  unfold faiss.top. rewrite take_take. do 2 f_equal.
  symmetry. apply Nat.min_l. apply Z2Nat.inj_le; lia.
Qed.






(** X4. [add_items] succeeds exactly when [embeddings] is a matrix with one
    row per metadata entry and rows of the width of the index; in every
    other case it raises and the store is what it was. *)
Theorem add_items_succeeds_iff self e m :
  ((add_items e m self).1 = inr ()
   <-> np.shape e = [length m; faiss.d (index self)])
  /\ (fails (add_items e m self).1 -> (add_items e m self).2 = self).
Proof.
  destruct (add_items e m self) as [r self'] eqn:Hadd. cbn [fst snd].
  destruct (add_items_inv _ _ _ _ _ Hadd) as [(-> & n & Hs & Hm & ->)|[[err ->] ->]].
  - split; [|by intros [err Herr]]. split; [|done]. intros _. by rewrite Hs, Hm.
  - split; [|done]. split; [done|]. intros Hs. exfalso.
    unfold add_items, np.len, faiss.add, np.unpack2 in Hadd.
    rewrite Hs in Hadd. cbn [bind ret] in Hadd.
    rewrite !bool_decide_eq_true_2 in Hadd by done. by cbn in Hadd.
Qed.

Lemma rows_app (n1 n2 d : nat) (xs ys : list Z) :
  length xs = (n1 * d)%nat ->
  np.rows (n1 + n2) d (xs ++ ys) = np.rows n1 d xs ++ np.rows n2 d ys.
Proof.
  revert xs. induction n1 as [|n1 IH]; intros xs Hlen.
  - simpl in *. by apply length_zero_iff_nil in Hlen as ->.
  - cbn [Nat.add np.rows app]. rewrite take_app_le, drop_app_le by lia.
    rewrite IH; [done|]. rewrite length_drop. lia.
Qed.

Lemma add_items_ok self e m :
  np.shape e = [length m; faiss.d (index self)] ->
  add_items e m self
  = (inr (), {| dimension := dimension self;
                index := {| faiss.d := faiss.d (index self);
                            faiss.xb := faiss.xb (index self)
                                        ++ np.rows (length m) (faiss.d (index self))
                                             (np.data e) |};
                metadata := metadata self ++ m |}).
Proof.
  intros Hs. unfold add_items, np.len, faiss.add, np.unpack2.
  rewrite Hs. cbn [bind ret]. by rewrite !bool_decide_eq_true_2 by done.
Qed.

(** X5. Adding two batches one after the other leaves the same store as
    adding their rows and metadata in one call. *)
Theorem add_items_batches_compose self e1 m1 e2 m2 (n1 n2 : nat) :
  np.shape e1 = [n1; faiss.d (index self)] ->
  np.shape e2 = [n2; faiss.d (index self)] ->
  np.wf e1 -> length m1 = n1 -> length m2 = n2 ->
  (do! _ := add_items e1 m1 in add_items e2 m2) self
  = add_items {| np.shape := [(n1 + n2)%nat; faiss.d (index self)];
                 np.data := np.data e1 ++ np.data e2 |} (m1 ++ m2) self.
Proof.
  intros Hs1 Hs2 Hwf <- <-. unfold mbind.
  rewrite (add_items_ok self e1 m1 Hs1).
  rewrite (add_items_ok _ e2 m2) by done.
  rewrite (add_items_ok self _ (m1 ++ m2)) by (simpl; by rewrite length_app).
  cbn [np.data index faiss.d faiss.xb metadata dimension].
  rewrite length_app, rows_app.
  - by rewrite <- !app_assoc.
  - unfold np.wf, np.size in Hwf. rewrite Hs1 in Hwf. simpl in Hwf. lia.
Qed.

(** * Further properties of saving and loading *)



(** * Further properties of the matcher *)

Lemma load_unreadable dir fs :
  ~ artifacts_readable fs dir -> fails (load dir fs).
Proof.
  unfold artifacts_readable, readable, load, read_index, pickle_load.
  destruct (fs !! dir ≫= config_pkl) as [[|dim]|];
    destruct (fs !! dir ≫= index_faiss) as [[|ix]|];
    destruct (fs !! dir ≫= metadata_pkl) as [[|md]|]; cbn;
    intros Hno; try (by eexists).
  exfalso. apply Hno. repeat split; by eexists.
Qed.

Lemma NoDup_lookups {A} (l : list A) (hs : list nat) (ms : list A) :
  Forall2 (fun h m => l !! h = Some m) hs ms ->
  NoDup hs -> NoDup l -> NoDup ms.
Proof.
  intros Hf Hhs Hl. induction Hf as [|h m hs ms Hm Hf IH]; [constructor|].
  apply NoDup_cons in Hhs as [Hh Hhs]. constructor; [|by apply IH].
  intros Hin. apply Hh.
  apply list_elem_of_lookup in Hin as [j Hj].
  destruct (Forall2_lookup_r _ _ _ _ _ Hf Hj) as (h' & Hh' & Hm').
  assert (h = h') as -> by (by eapply NoDup_lookup).
  by eapply list_elem_of_lookup_2.
Qed.

Section MatcherMore.

Variable D : nat.
Variable model : string -> list Z.
Variable catalog : list function_meta.

Let find := find_matching_function D model catalog.
Let init := initialize_vector_store D model catalog.

Lemma initialize_load_fail dir w err :
  has_index_file w.2 dir = true -> load dir w.2 = inl err ->
  init dir w = (inl err, w).
Proof.
  intros Hidx Hload. subst init. unfold initialize_vector_store.
  rewrite Hidx. unfold mbind, lift. by rewrite Hload.
Qed.

Lemma initialize_load_ok dir w vs :
  has_index_file w.2 dir = true -> load dir w.2 = inr vs ->
  init dir w
  = (inr vs, ({| model_name := model_name w.1; vector_store := Some vs |}, w.2)).
Proof.
  intros Hidx Hload. subst init. unfold initialize_vector_store.
  rewrite Hidx. unfold mbind, lift. by rewrite Hload.
Qed.

Lemma initialize_empty_catalog dir w :
  has_index_file w.2 dir = false -> catalog = [] ->
  init dir w = (inl IndexError, w).
Proof.
  intros Hidx Hc. subst init. unfold initialize_vector_store.
  rewrite Hidx, Hc. reflexivity.
Qed.

Lemma initialize_build dir w :
  has_index_file w.2 dir = false -> catalog <> [] ->
  exists vs fs',
    init dir w
    = (inr vs, ({| model_name := model_name w.1; vector_store := Some vs |}, fs'))
    /\ fs' !! dir = Some {| index_faiss := Some (Content (index vs));
                            metadata_pkl := Some (Content (metadata vs));
                            config_pkl := Some (Content (dimension vs)) |}
    /\ (forall other, other <> dir -> fs' !! other = w.2 !! other)
    /\ vs = {| dimension := D;
               index := {| faiss.d := D;
                           faiss.xb := np.rows (length catalog) D
                                         (concat (model <$> (description_text <$> catalog))) |};
               metadata := catalog |}.
Proof.
  intros Hidx Hcat. subst init. unfold initialize_vector_store. rewrite Hidx.
  rewrite encode_list_nonempty
    by (intros Hnil; by apply fmap_nil_inv in Hnil).
  cbn [np.shape].
  replace (py_getitem [length (description_text <$> catalog); D] 1)
    with (inr D : result nat)
    by (symmetry; by apply (py_getitem_nat _ 1 D)).
  unfold mbind, lift, set_vector_store, on_vector_store, mbind,
    get_vector_store, on_fs, mret.
  cbn -[add_items makedirs save np.rows].
  rewrite add_items_ok by (simpl; by rewrite length_fmap).
  cbn -[makedirs save np.rows].
  destruct (makedirs dir w.2) as [[err|[]] fs1] eqn:Hmk;
    [by unfold makedirs in Hmk|]. cbn -[save np.rows].
  match goal with |- context [save ?s _ _] =>
    destruct (save_spec s dir fs1) as (fs' & -> & Hdir & Hother) end.
  cbn -[np.rows]. eexists _, fs'. split; [reflexivity|].
  split; [exact Hdir|]. split; [|reflexivity].
  intros other Hne. rewrite (Hother other Hne).
  unfold makedirs in Hmk. injection Hmk as <-.
  destruct (w.2 !! dir); [done|]. by rewrite lookup_insert_ne.
Qed.

Lemma has_index_file_saved (fs : filesystem) dir ix md dim :
  fs !! dir = Some {| index_faiss := Some (Content ix);
                      metadata_pkl := Some (Content md);
                      config_pkl := Some (Content dim) |} ->
  has_index_file fs dir = true
  /\ load dir fs = inr {| dimension := dim; index := ix; metadata := md |}.
Proof.
  intros Hdir. split.
  - unfold has_index_file. by rewrite Hdir.
  - apply load_spec; by rewrite Hdir.
Qed.

(** X8. [initialize_vector_store] is idempotent: a second call on what the
    first one left gives the same outcome and leaves the generator and the
    disk unchanged, whether the first call loaded a saved store, built it
    from the catalog, or failed. *)
Theorem initialize_vector_store_idempotent dir w :
  init dir (init dir w).2 = init dir w.
Proof.
  destruct (has_index_file w.2 dir) eqn:Hidx.
  - destruct (load dir w.2) as [err|vs] eqn:Hload.
    + rewrite (initialize_load_fail dir w err Hidx Hload). cbn [snd].
      by apply initialize_load_fail.
    + rewrite (initialize_load_ok dir w vs Hidx Hload). cbn [snd].
      by rewrite (initialize_load_ok dir _ vs).
  - destruct (decide (catalog = [])) as [Hc|Hc].
    + rewrite (initialize_empty_catalog dir w Hidx Hc). cbn [snd].
      by apply initialize_empty_catalog.
    + destruct (initialize_build dir w Hidx Hc) as (vs & fs' & -> & Hdir & _ & _).
      cbn [snd]. destruct (has_index_file_saved _ _ _ _ _ Hdir) as [Hidx' Hload'].
      rewrite (initialize_load_ok dir _ vs); [done|done|].
      cbn [snd]. rewrite Hload'. by destruct vs.
Qed.

(** X9. When [initialize_vector_store] returns a store, the generator holds
    that store and the directory holds a copy that [load] reads back as the
    same store. *)
Theorem initialize_vector_store_memory_matches_disk dir w vs :
  (init dir w).1 = inr vs ->
  vector_store (init dir w).2.1 = Some vs
  /\ load dir (init dir w).2.2 = inr vs.
Proof.
  destruct (has_index_file w.2 dir) eqn:Hidx.
  - destruct (load dir w.2) as [err|vs'] eqn:Hload.
    + by rewrite (initialize_load_fail dir w err Hidx Hload).
    + rewrite (initialize_load_ok dir w vs' Hidx Hload). cbn [fst snd].
      intros [= <-]. by rewrite Hload.
  - destruct (decide (catalog = [])) as [Hc|Hc].
    + by rewrite (initialize_empty_catalog dir w Hidx Hc).
    + destruct (initialize_build dir w Hidx Hc) as (vs' & fs' & -> & Hdir & _ & _).
      cbn [fst snd]. intros [= <-]. split; [done|].
      destruct (has_index_file_saved _ _ _ _ _ Hdir) as [_ ->].
      by destruct vs'.
Qed.

Lemma find_after_initialize query k w vs w' :
  vector_store w.1 = None ->
  init "vector_db"%string w = (inr vs, w') ->
  vector_store w'.1 = Some vs ->
  find query k w
  = match search vs (encode_str D model query) k with
    | inl err => (inl err, w')
    | inr matches => (inr (fst <$> matches), w')
    end.
Proof.
  intros Hnone Hinit Hvs. subst find init.
  unfold find_matching_function, mbind, mret, lift, get_vector_store.
  cbv beta. rewrite Hnone, Hinit. cbv beta iota. by rewrite Hvs.
Qed.

(** X10. A saved index whose files cannot all be read is never replaced by a
    rebuild from the catalog: every [find_matching_function] call on a
    generator without a store raises and leaves generator and disk as they
    were. *)
Theorem unreadable_saved_index_is_not_rebuilt query k w :
  vector_store w.1 = None ->
  has_index_file w.2 "vector_db" = true ->
  ~ artifacts_readable w.2 "vector_db" ->
  fails (find query k w).1 /\ (find query k w).2 = w.
Proof.
  intros Hnone Hidx Hbad.
  destruct (load_unreadable _ _ Hbad) as [err Hload].
  pose proof (initialize_load_fail "vector_db" w err Hidx Hload) as Hinit.
  subst find init. unfold find_matching_function, mbind.
  cbv beta. rewrite Hnone, Hinit. split; [by exists err|done].
Qed.

(** X11. On a generator without a store and a disk without a saved index,
    [find_matching_function] with a positive [k] returns [min(k, n)] entries
    of the [n]-entry catalog, each of them a catalog entry, and no entry
    twice when the catalog lists none twice; the embeddings are those of an
    encoder whose float32 distances to the query are finite. *)
Theorem find_matching_function_fresh_results query k w :
  vector_store w.1 = None ->
  has_index_file w.2 "vector_db" = false ->
  catalog <> [] -> 0 < k ->
  all_finite (catalog_rows D model catalog) (take D (model query)) ->
  exists matches,
    (find query k w).1 = inr matches
    /\ length matches = (Z.to_nat k `min` length catalog)%nat
    /\ (forall m, m ∈ matches -> m ∈ catalog)
    /\ (NoDup catalog -> NoDup matches).
Proof.
  intros Hnone Hidx Hcat Hk Hfin.
  destruct (initialize_build "vector_db" w Hidx Hcat)
    as (vs & fs' & Hinit & _ & _ & Hvs).
  rewrite (find_after_initialize query k w vs _ Hnone Hinit eq_refl).
  assert (Hcons : consistent vs).
  { rewrite Hvs. unfold consistent, faiss.ntotal. simpl. apply length_rows. }
  assert (Hq : valid_query vs (encode_str D model query)).
  { left. by rewrite Hvs. }
  rewrite (search_valid _ _ _ Hq Hk). cbn [fst].
  set (qr := query_row vs (encode_str D model query)).
  set (t := faiss.top (faiss.xb (index vs)) qr (Z.to_nat k)).
  destruct (ranked_hits_of_top vs qr (Z.to_nat k) t Hcons) as [Hent _].
  { by apply Forall_forall. }
  assert (Hmd : metadata vs = catalog) by by rewrite Hvs.
  assert (Hlook : Forall2 (fun h m => catalog !! h = Some m)
                    ((fun c : Z * Z => Z.to_nat c.2) <$> t)
                    (fst <$> omap (hit (metadata vs)) t)).
  { apply Forall2_fmap_r. eapply Forall2_impl; [exact Hent|].
    intros h r (v & _ & Hm & _). by rewrite <- Hmd. }
  eexists. split; [done|]. split; [|split].
  - subst t. rewrite length_fmap.
    rewrite (length_omap_all _ _ (hits_all_found vs qr _ Hcons)).
    rewrite length_top by (subst qr; by rewrite Hvs).
    unfold consistent, faiss.ntotal in Hcons. by rewrite Hcons, Hmd.
  - intros m Hm. apply list_elem_of_lookup in Hm as [j Hj].
    destruct (Forall2_lookup_r _ _ _ _ _ Hlook Hj) as (h & _ & Hh).
    by eapply list_elem_of_lookup_2.
  - intros Hnd. eapply NoDup_lookups; [exact Hlook| |exact Hnd].
    apply top_labels_NoDup.
Qed.

(** X12. A first [find_matching_function] call with [k <= 0] raises, but
    only after the store has been built from the catalog and saved: the
    generator keeps the store and the disk holds its copy. *)
Theorem find_matching_function_rejected_after_initialization query k w :
  vector_store w.1 = None ->
  has_index_file w.2 "vector_db" = false ->
  catalog <> [] -> k <= 0 ->
  (find query k w).1 = inl AssertionError
  /\ exists vs,
       vector_store (find query k w).2.1 = Some vs
       /\ metadata vs = catalog
       /\ load "vector_db" (find query k w).2.2 = inr vs.
Proof.
  intros Hnone Hidx Hcat Hk.
  destruct (initialize_build "vector_db" w Hidx Hcat)
    as (vs & fs' & Hinit & Hdir & _ & Hvs).
  rewrite (find_after_initialize query k w vs _ Hnone Hinit eq_refl).
  assert (Hs : search vs (encode_str D model query) k = inl AssertionError).
  { unfold search, faiss.search, np.unpack2, np.ndim, np.reshape_1_m1, np.size.
    rewrite Hvs. simpl. rewrite Nat.mul_1_r.
    rewrite bool_decide_eq_true_2 by done. simpl.
    by rewrite bool_decide_eq_false_2 by lia. }
  rewrite Hs. cbn [fst snd]. split; [done|]. exists vs.
  split; [done|]. split; [by rewrite Hvs|].
  destruct (has_index_file_saved _ _ _ _ _ Hdir) as [_ ->]. by destruct vs.
Qed.

End MatcherMore.

(** * The code generator *)

Section CodeGeneratorFacts.

Variable pyvalue : Type.
Variable repr : pyvalue -> string.

Let gen_code := generate_code pyvalue repr.
Let gen_multi := generate_multi_function_code pyvalue repr.

Lemma valid_params_idemp names (ps : pydict pyvalue) :
  valid_params pyvalue names (Some (valid_params pyvalue names (Some ps)))
  = valid_params pyvalue names (Some ps).
Proof.
  unfold valid_params, items. by apply list_filter_filter_l.
Qed.

Lemma valid_params_no_names (params : option (pydict pyvalue)) :
  valid_params pyvalue [] params = [].
Proof.
  unfold valid_params.
  destruct (filter _ (items pyvalue params)) as [|kv l] eqn:Hf; [done|].
  assert (Hin : kv ∈ kv :: l) by left. rewrite <- Hf in Hin.
  apply list_elem_of_filter in Hin as [Hin _]. by apply elem_of_nil in Hin.
Qed.

(** X13. The text [generate_code] produces for a registered function depends
    on [params] only through the entries named in the function's signature:
    dropping every other entry gives the same text, and when no entry is
    left the text is the one for no parameters at all. *)
Theorem generate_code_ignores_foreign_params function_name names (ps : pydict pyvalue) :
  function_mapping !! function_name = Some names ->
  gen_code function_name (Some ps)
  = gen_code function_name (Some (valid_params pyvalue names (Some ps)))
  /\ (valid_params pyvalue names (Some ps) = [] ->
      gen_code function_name (Some ps) = gen_code function_name None).
Proof.
  intros Hmap. subst gen_code. unfold generate_code. rewrite Hmap.
  rewrite valid_params_idemp.
  destruct (decide (names = [])) as [->|Hnames].
  - rewrite !valid_params_no_names.
    rewrite (bool_decide_eq_true_2 ([] = [])) by done.
    cbn [negb]. rewrite !andb_false_r. done.
  - rewrite (bool_decide_eq_false_2 (names = [])) by done. cbn [negb].
    rewrite !andb_true_r.
    destruct (valid_params pyvalue names (Some ps)) as [|kv valid] eqn:Hvalid.
    + rewrite !bool_decide_eq_true_2 by done. cbn [negb truthy].
      split; [|intros _]; by destruct ps.
    + assert (truthy pyvalue (Some ps) = true) as ->.
      { destruct ps; [|done]. by vm_compute in Hvalid. }
      split; done.
Qed.

Lemma zip_padded_imap (names : list string) (l : list (option (pydict pyvalue))) :
  zip names (l ++ replicate (length names - length l) None)
  = imap (fun i name => (name, param_at pyvalue (Some l) i)) names.
Proof.
  revert l. induction names as [|name names IH]; intros l; [done|].
  rewrite imap_cons. destruct l as [|p l].
  - cbn [length Nat.sub app replicate zip zip_with param_at lookup list_lookup mjoin option_join].
    f_equal. specialize (IH []). rewrite Nat.sub_0_r in IH. simpl in IH.
    rewrite IH. apply imap_ext. intros i x _. done.
  - cbn [length Nat.sub app zip zip_with]. f_equal. rewrite IH.
    apply imap_ext. intros i x _. done.
Qed.

Lemma zip_none_imap (names : list string) :
  zip names (replicate (length names) (None : option (pydict pyvalue)))
  = imap (fun i name => (name, param_at pyvalue None i)) names.
Proof.
  pose proof (zip_padded_imap names []) as H.
  rewrite Nat.sub_0_r in H. simpl in H. rewrite H.
  apply imap_ext. intros i x _. done.
Qed.

Lemma padded_zip_imap (names : list string) (params_list : option (list (option (pydict pyvalue)))) :
  zip names
    (match params_list with
     | None => replicate (length names) None
     | Some l => l ++ replicate (length names - length l) None
     end)
  = imap (fun i name => (name, param_at pyvalue params_list i)) names.
Proof.
  destruct params_list as [l|]; [apply zip_padded_imap|apply zip_none_imap].
Qed.

(** X14. The text [generate_multi_function_code] produces depends on
    [params_list] only through the parameters at the positions of the
    function names: no list, a list that is too short and [None] entries all
    mean no parameters, and entries beyond the last function name are
    ignored. *)
Theorem generate_multi_function_code_params_by_position
    (names : list string) params_list params_list' :
  (forall i, (i < length names)%nat ->
     param_at pyvalue params_list i = param_at pyvalue params_list' i) ->
  (gen_multi names params_list).1 = (gen_multi names params_list').1.
Proof.
  intros Hsame. subst gen_multi. unfold generate_multi_function_code.
  destruct names as [|name names]; [done|]. cbn [fst].
  rewrite !padded_zip_imap. do 8 f_equal.
  apply imap_ext. intros i x Hi. f_equal. apply Hsame.
  by eapply lookup_lt_Some.
Qed.

(** X15. [generate_multi_function_code] extends the caller's [params_list]
    in place: afterwards the list starts with the entries it had, followed
    only by [None] entries, and is at least as long as [function_names];
    it is never shortened, and with no function names it is left alone. *)
Theorem generate_multi_function_code_pads_params_list
    (names : list string) (l : list (option (pydict pyvalue))) :
  exists after,
    (gen_multi names (Some l)).2 = Some after
    /\ l `prefix_of` after
    /\ Forall (fun p => p = None) (drop (length l) after)
    /\ (names <> [] -> length after = (length names `max` length l)%nat)
    /\ (names = [] -> after = l).
Proof.
  subst gen_multi. unfold generate_multi_function_code.
  destruct names as [|name names].
  - exists l. cbn [snd]. repeat split; try done.
    rewrite drop_all. constructor.
  - eexists. cbn [snd]. split; [done|]. split; [by apply prefix_app_r|].
    split; [|split; [|done]].
    + rewrite drop_app_length. apply Forall_replicate. done.
    + intros _. rewrite length_app, length_replicate. lia.
Qed.

End CodeGeneratorFacts.

(** * Chat history *)

(** X16. [clear_chat_history] empties the history of the given session and
    of no other: afterwards [get_chat_history] returns the empty list for
    that session and what it returned before for every other one, and no
    session is created or removed. *)
Theorem clear_chat_history_only_that_session {entry : Type}
    (chat_sessions : gmap string (list entry)) (session_id other : string) :
  get_chat_history other (clear_chat_history session_id chat_sessions).2
  = (if decide (other = session_id) then []
     else get_chat_history other chat_sessions)
  /\ dom (clear_chat_history session_id chat_sessions).2 = dom chat_sessions.
Proof.
  unfold clear_chat_history, get_chat_history. cbn [snd].
  destruct (chat_sessions !! session_id) as [history|] eqn:Hs.
  - split.
    + destruct (decide (other = session_id)) as [->|Hne].
      * by rewrite lookup_insert_eq.
      * by rewrite lookup_insert_ne.
    + by apply dom_insert_lookup_L.
  - split; [|done]. destruct (decide (other = session_id)) as [->|Hne]; [|done].
    by rewrite Hs.
Qed.

(** * Searching after adding *)


(** * The [/execute] endpoint *)

Section RoutesFacts.

Variable pyvalue : Type.
Variable repr : pyvalue -> string.
Variable D : nat.
Variable model : string -> list Z.
Variable catalog : list function_meta.
Variable seconds : Type.
Variable invoke : string -> pydict pyvalue -> string + option pyvalue.
Variable elapsed : string -> seconds.
Variable str_exn : exn -> string.
Variable elapsed_all : list string -> seconds.

Let execute :=
  execute_function pyvalue repr D model catalog seconds invoke elapsed str_exn.
Let multi_execute :=
  execute_multiple_functions pyvalue repr D model catalog seconds invoke str_exn
    elapsed_all.

Lemma append_entry_lookup sid other (e : chat_entry pyvalue) (sessions : gmap string (list (chat_entry pyvalue))) :
  append_entry pyvalue sid e sessions !! other
  = if decide (other = sid) then (fun h => h ++ [e]) <$> sessions !! sid
    else sessions !! other.
Proof.
  unfold append_entry. destruct (sessions !! sid) as [h|] eqn:Hs.
  - destruct (decide (other = sid)) as [->|Hne].
    + by rewrite lookup_insert_eq.
    + by rewrite lookup_insert_ne.
  - destruct (decide (other = sid)) as [->|Hne]; [by rewrite Hs|done].
Qed.

Lemma opened_session_lookup sid other (sessions : gmap string (list (chat_entry pyvalue))) :
  match sessions !! sid with
  | None => <[sid := []]> sessions
  | Some _ => sessions
  end !! other
  = if decide (other = sid) then Some (get_chat_history sid sessions)
    else sessions !! other.
Proof.
  unfold get_chat_history. destruct (sessions !! sid) as [h|] eqn:Hs.
  - destruct (decide (other = sid)) as [->|Hne]; [by rewrite Hs|done].
  - destruct (decide (other = sid)) as [->|Hne].
    + by rewrite lookup_insert_eq.
    + by rewrite lookup_insert_ne.
Qed.

(** X18. [execute_function] rejects a missing or empty prompt with status
    400 and changes nothing. Otherwise it only appends to the history of the
    request's session: first the prompt, then the response entry when a
    function was matched and run; when matching fails (status 500) or finds
    nothing, the prompt alone stays recorded. No other session is touched. *)
Theorem execute_function_appends_to_history request_data st :
  let sid := default "default"%string (session_id pyvalue request_data) in
  let out := execute request_data st in
  ((prompt pyvalue request_data = None \/ prompt pyvalue request_data = Some ""%string) ->
   out = (HTTPException pyvalue seconds 400 "Prompt is required", st))
  /\ (forall p, prompt pyvalue request_data = Some p -> p <> ""%string ->
      (forall other, other <> sid ->
         chat_sessions pyvalue out.2 !! other = chat_sessions pyvalue st !! other)
      /\ get_chat_history sid (chat_sessions pyvalue out.2)
         = get_chat_history sid (chat_sessions pyvalue st)
           ++ UserEntry pyvalue p
              :: match out.1 with
                 | ExecuteBody _ _ f _ r e _ =>
                   [SystemEntry pyvalue f (if no_error e then r else None) e]
                 | _ => []
                 end).
Proof.
  intros sid out. subst out execute. unfold execute_function. fold sid. split.
  - intros [->| ->]; [done|]. by rewrite bool_decide_eq_true_2.
  - intros p -> Hp. rewrite bool_decide_eq_false_2 by done.
    destruct (get_embedding_generator _ _) as [embedding_gen global].
    set (opened := match chat_sessions pyvalue st !! sid with
                   | None => <[sid := []]> (chat_sessions pyvalue st)
                   | Some _ => chat_sessions pyvalue st
                   end).
    set (sessions := append_entry pyvalue sid (UserEntry pyvalue p) opened).
    assert (Hsid : sessions !! sid
                   = Some (get_chat_history sid (chat_sessions pyvalue st)
                           ++ [UserEntry pyvalue p])).
    { subst sessions opened. rewrite append_entry_lookup, decide_True by done.
      by rewrite opened_session_lookup, decide_True by done. }
    assert (Hother : forall other, other <> sid ->
              sessions !! other = chat_sessions pyvalue st !! other).
    { intros other Hne. subst sessions opened.
      rewrite append_entry_lookup, decide_False by done.
      by rewrite opened_session_lookup, decide_False by done. }
    destruct (find_matching_function D model catalog p 1 (embedding_gen, disk pyvalue st))
      as [[e|[|best_match rest]] [gen' disk']]; cbn [fst snd chat_sessions].
    + split; [done|]. unfold get_chat_history at 1. by rewrite Hsid.
    + split; [done|]. unfold get_chat_history at 1. by rewrite Hsid.
    + destruct (match function_mapping !! name best_match with
                | Some _ => _ | None => _ end) as [result error].
      cbn [fst snd chat_sessions]. split.
      * intros other Hne. rewrite append_entry_lookup, decide_False by done.
        by apply Hother.
      * unfold get_chat_history at 1.
        rewrite append_entry_lookup, decide_True, Hsid by done. simpl.
        by rewrite <- app_assoc.
Qed.

Lemma multi_execute_history request_data st :
  let sid := default "default"%string (multi_session_id pyvalue request_data) in
  let out := multi_execute request_data st in
  ((multi_prompt pyvalue request_data = None
    \/ multi_prompt pyvalue request_data = Some ""%string) ->
   out = (HTTPException pyvalue seconds 400 "Prompt is required", st))
  /\ (forall p, multi_prompt pyvalue request_data = Some p -> p <> ""%string ->
      (forall other, other <> sid ->
         chat_sessions pyvalue out.2 !! other = chat_sessions pyvalue st !! other)
      /\ get_chat_history sid (chat_sessions pyvalue out.2)
         = get_chat_history sid (chat_sessions pyvalue st)
           ++ UserEntry pyvalue p
              :: match out.1 with
                 | MultiExecuteBody _ _ fs _ rs es _ =>
                   [SystemMultiEntry pyvalue fs rs es]
                 | _ => []
                 end).
Proof.
  intros sid out. subst out multi_execute. unfold execute_multiple_functions.
  fold sid. split.
  - intros [->| ->]; [done|]. by rewrite bool_decide_eq_true_2.
  - intros p -> Hp. rewrite bool_decide_eq_false_2 by done.
    destruct (get_embedding_generator _ _) as [embedding_gen global].
    set (opened := match chat_sessions pyvalue st !! sid with
                   | None => <[sid := []]> (chat_sessions pyvalue st)
                   | Some _ => chat_sessions pyvalue st
                   end).
    set (sessions := append_entry pyvalue sid (UserEntry pyvalue p) opened).
    assert (Hsid : sessions !! sid
                   = Some (get_chat_history sid (chat_sessions pyvalue st)
                           ++ [UserEntry pyvalue p])).
    { subst sessions opened. rewrite append_entry_lookup, decide_True by done.
      by rewrite opened_session_lookup, decide_True by done. }
    assert (Hother : forall other, other <> sid ->
              sessions !! other = chat_sessions pyvalue st !! other).
    { intros other Hne. subst sessions opened.
      rewrite append_entry_lookup, decide_False by done.
      by rewrite opened_session_lookup, decide_False by done. }
    destruct (find_matching_function D model catalog p _ (embedding_gen, disk pyvalue st))
      as [[e|[|best_match rest]] [gen' disk']]; cbn [fst snd chat_sessions].
    + split; [done|]. unfold get_chat_history at 1. by rewrite Hsid.
    + split; [done|]. unfold get_chat_history at 1. by rewrite Hsid.
    + destruct (generate_multi_function_code _ _ _ _) as [code padded].
      destruct (run_functions _ _ _ _ _ _) as [results errors].
      cbn [fst snd chat_sessions]. split.
      * intros other Hne. rewrite append_entry_lookup, decide_False by done.
        by apply Hother.
      * unfold get_chat_history at 1.
        rewrite append_entry_lookup, decide_True, Hsid by done. simpl.
        by rewrite <- app_assoc.
Qed.

(** X19. [execute_multiple_functions] treats the history like
    [execute_function]: nothing changes for a missing or empty prompt;
    otherwise the prompt is appended to the session's history, followed by
    one response entry exactly when functions were matched and run, and no
    other session is touched. *)
Theorem execute_multiple_functions_appends_to_history request_data st :
  let sid := default "default"%string (multi_session_id pyvalue request_data) in
  let out := multi_execute request_data st in
  ((multi_prompt pyvalue request_data = None
    \/ multi_prompt pyvalue request_data = Some ""%string) ->
   out = (HTTPException pyvalue seconds 400 "Prompt is required", st))
  /\ (forall p, multi_prompt pyvalue request_data = Some p -> p <> ""%string ->
      (forall other, other <> sid ->
         chat_sessions pyvalue out.2 !! other = chat_sessions pyvalue st !! other)
      /\ get_chat_history sid (chat_sessions pyvalue out.2)
         = get_chat_history sid (chat_sessions pyvalue st)
           ++ UserEntry pyvalue p
              :: match out.1 with
                 | MultiExecuteBody _ _ fs _ rs es _ =>
                   [SystemMultiEntry pyvalue fs rs es]
                 | _ => []
                 end).
Proof. apply multi_execute_history. Qed.

Lemma run_functions_domains pl (enum : list (nat * string)) results errors :
  let out := run_functions pyvalue invoke pl enum results errors in
  dom out.1 ∪ dom out.2
  = dom results ∪ dom errors ∪ list_to_set (snd <$> enum)
  /\ (NoDup (snd <$> enum) ->
      (forall fn, fn ∈ snd <$> enum -> fn ∉ dom results ∪ dom errors) ->
      dom results ## dom errors -> dom out.1 ## dom out.2)
  /\ (forall fn, function_mapping !! fn = None ->
        out.1 !! fn = results !! fn
        /\ out.2 !! fn
           = if decide (fn ∈ snd <$> enum)
             then Some ("Function " ++ fn ++ " not found in registry")%string
             else errors !! fn).
Proof.
  revert results errors.
  induction enum as [|[i function_name] rest IH]; intros results errors.
  { cbn. split; [set_solver|]. split; [done|]. intros fn _.
    split; [done|]. rewrite decide_False; [done|]. apply not_elem_of_nil. }
  cbn [run_functions fmap list_fmap snd list_to_set].
  destruct (function_mapping !! function_name) as [sig|] eqn:Hmap.
  - destruct (invoke function_name _) as [msg|value].
    + destruct (IH results (<[function_name := msg]> errors)) as (Hd & Hdisj & Hnf).
      split; [|split].
      * rewrite Hd, dom_insert_L. set_solver.
      * intros Hnd Hfresh Hrd. apply NoDup_cons in Hnd as [Hhd Hnd].
        apply Hdisj; [done| |].
        -- intros fn Hfn. rewrite dom_insert_L.
           pose proof (Hfresh fn). set_solver.
        -- rewrite dom_insert_L. pose proof (Hfresh function_name). set_solver.
      * intros fn Hfn. destruct (Hnf fn Hfn) as [Hr He]. split; [done|].
        rewrite He. assert (fn <> function_name) by congruence.
        destruct (decide (fn ∈ snd <$> rest)) as [Hin|Hin].
        -- rewrite decide_True; [done|]. by right.
        -- rewrite decide_False by set_solver. by rewrite lookup_insert_ne.
    + destruct (IH (<[function_name := value]> results) errors) as (Hd & Hdisj & Hnf).
      split; [|split].
      * rewrite Hd, dom_insert_L. set_solver.
      * intros Hnd Hfresh Hrd. apply NoDup_cons in Hnd as [Hhd Hnd].
        apply Hdisj; [done| |].
        -- intros fn Hfn. rewrite dom_insert_L.
           pose proof (Hfresh fn). set_solver.
        -- rewrite dom_insert_L. pose proof (Hfresh function_name). set_solver.
      * intros fn Hfn. destruct (Hnf fn Hfn) as [Hr He].
        assert (fn <> function_name) by congruence. split.
        -- by rewrite Hr, lookup_insert_ne.
        -- rewrite He. destruct (decide (fn ∈ snd <$> rest)) as [Hin|Hin].
           ++ rewrite decide_True; [done|]. by right.
           ++ by rewrite decide_False by set_solver.
  - destruct (IH results
                (<[function_name :=
                     ("Function " ++ function_name ++ " not found in registry")%string]>
                   errors)) as (Hd & Hdisj & Hnf).
    split; [|split].
    + rewrite Hd, dom_insert_L. set_solver.
    + intros Hnd Hfresh Hrd. apply NoDup_cons in Hnd as [Hhd Hnd].
      apply Hdisj; [done| |].
      * intros fn Hfn. rewrite dom_insert_L.
        pose proof (Hfresh fn). set_solver.
      * rewrite dom_insert_L. pose proof (Hfresh function_name). set_solver.
    + intros fn Hfn. destruct (Hnf fn Hfn) as [Hr He]. split; [done|].
      rewrite He. destruct (decide (fn ∈ snd <$> rest)) as [Hin|Hin].
      * rewrite decide_True; [done|]. by right.
      * destruct (decide (fn = function_name)) as [->|Hne].
        -- rewrite decide_True by left. by rewrite lookup_insert_eq.
        -- rewrite decide_False by set_solver. by rewrite lookup_insert_ne.
Qed.

Lemma snd_enumerate {A} (l : list A) : snd <$> enumerate l = l.
Proof.
  unfold enumerate. rewrite fmap_imap.
  transitivity (imap (fun (_ : nat) (x : A) => x) l);
    [by apply imap_ext|].
  induction l as [|x l IH]; [done|]. rewrite imap_cons. f_equal. exact IH.
Qed.

(** X20. When [execute_multiple_functions] answers with results, every
    matched function name is reported in [results] or in [errors] and
    nothing else is; a name is never in both when the matched names are
    distinct, and a name missing from the registry is reported in [errors]
    only, as not found. *)
Theorem execute_multiple_functions_reports_every_function
    request_data st names code results errors time :
  (multi_execute request_data st).1
  = MultiExecuteBody pyvalue seconds names code results errors time ->
  names <> []
  /\ dom results ∪ dom errors = list_to_set names
  /\ (NoDup names -> dom results ## dom errors)
  /\ (forall fn, fn ∈ names -> function_mapping !! fn = None ->
        results !! fn = None
        /\ errors !! fn = Some ("Function " ++ fn ++ " not found in registry")%string).
Proof.
  subst multi_execute. unfold execute_multiple_functions.
  destruct (multi_prompt pyvalue request_data) as [p|]; [|done].
  destruct (bool_decide (p = ""%string)); [done|].
  destruct (get_embedding_generator _ _) as [embedding_gen global].
  destruct (find_matching_function D model catalog p _ _)
    as [[e|[|best_match rest]] [gen' disk']]; [done|done|].
  destruct (generate_multi_function_code _ _ _ _) as [code' padded].
  destruct (run_functions _ _ _ _ _ _) as [results' errors'] eqn:Hrun.
  cbn [fst]. intros [= <- _ <- <- _].
  pose proof (run_functions_domains
                (default (default [] (params_list pyvalue request_data)) padded)
                (enumerate (name <$> best_match :: rest)) ∅ ∅) as Hdom.
  rewrite Hrun, snd_enumerate in Hdom. cbn [fst snd] in Hdom.
  destruct Hdom as (Hd & Hdisj & Hnf).
  split; [done|]. split; [|split].
  - rewrite Hd, !dom_empty_L. set_solver.
  - intros Hnd. apply Hdisj; [done| |]; rewrite ?dom_empty_L; set_solver.
  - intros fn Hin Hmap. destruct (Hnf fn Hmap) as [Hr He].
    split; [by rewrite Hr|]. by rewrite He, decide_True.
Qed.

End RoutesFacts.

Lemma search_nonpositive_fails self q k : k <= 0 -> fails (search self q k).
Proof.
  intros Hk. unfold search, faiss.search, np.unpack2.
  destruct (np.shape (if bool_decide (np.ndim q = 1%nat)
                      then np.reshape_1_m1 q else q)) as [|n [|dx [|? ?]]];
    cbn [bind raise ret]; try by eexists.
  rewrite (bool_decide_eq_false_2 (k > 0)) by lia. cbn [negb].
  destruct (negb (bool_decide (dx = faiss.d (index self)))); by eexists.
Qed.

Lemma find_nonpositive_fails D model catalog query k w :
  k <= 0 -> fails (find_matching_function D model catalog query k w).1.
Proof.
  intros Hk. unfold find_matching_function, mbind, mret, lift, get_vector_store.
  cbv beta.
  destruct (vector_store w.1) as [vs|] eqn:Hvs.
  - rewrite Hvs.
    destruct (search_nonpositive_fails vs (encode_str D model query) k Hk)
      as [err ->]. by exists err.
  - destruct (initialize_vector_store D model catalog "vector_db" w)
      as [[err|vs] w']; cbn -[search]; [by exists err|].
    destruct (vector_store w'.1) as [vs'|]; cbn -[search]; [|by eexists].
    destruct (search_nonpositive_fails vs' (encode_str D model query) k Hk)
      as [err ->]. by exists err.
Qed.

(** X21. A [/multi-execute] request that asks for zero or a negative number
    of functions is answered with status 500, whatever the prompt and the
    state of the service: the matcher raises for such a [k]; the prompt has
    by then been recorded in the history. *)
Theorem execute_multiple_functions_nonpositive_num_functions
    pyvalue repr D model catalog seconds invoke str_exn elapsed_all
    (request_data : multi_execute_request pyvalue) (st : server pyvalue) p k :
  multi_prompt pyvalue request_data = Some p -> p <> ""%string ->
  num_functions pyvalue request_data = Some k -> k <= 0 ->
  let out := execute_multiple_functions pyvalue repr D model catalog seconds
               invoke str_exn elapsed_all request_data st in
  (exists detail, out.1 = HTTPException pyvalue seconds 500 detail)
  /\ get_chat_history (default "default"%string (multi_session_id pyvalue request_data))
       (chat_sessions pyvalue out.2)
     = get_chat_history (default "default"%string (multi_session_id pyvalue request_data))
         (chat_sessions pyvalue st)
       ++ [UserEntry pyvalue p].
Proof.
  intros Hp Hne Hk Hle out.
  destruct (multi_execute_history pyvalue repr D model
              catalog seconds invoke str_exn elapsed_all request_data st)
    as [_ Hhist].
  destruct (Hhist p Hp Hne) as [_ Hget]. fold out in Hget.
  assert (Hout : exists detail, out.1 = HTTPException pyvalue seconds 500 detail).
  { subst out. unfold execute_multiple_functions. rewrite Hp, Hk.
    rewrite bool_decide_eq_false_2 by done.
    change (default 3 (Some k)) with k.
    destruct (get_embedding_generator _ _) as [embedding_gen global].
    destruct (find_nonpositive_fails D model catalog p k
                (embedding_gen, disk pyvalue st) Hle) as [err Herr].
    destruct (find_matching_function D model catalog p k _) as [r [gen' disk']].
    cbn [fst] in Herr. subst r. by eexists. }
  split; [done|]. destruct Hout as [detail Hout].
  by rewrite Hget, Hout.
Qed.

(** * Start-up and requests *)



(** * The further properties at concrete inputs *)


Lemma search_smaller_k_is_prefix_witness :
  exists results results',
    search sample_store origin 1 = inr results
    /\ search sample_store origin 3 = inr results'
    /\ results = take 1 results'.
Proof.
  apply (search_smaller_k_is_prefix sample_store origin 1 3);
    [reflexivity|left; reflexivity|lia|lia].
Defined.


Lemma add_items_succeeds_iff_witness :
  (add_items {| np.shape := [1%nat; 2%nat]; np.data := [6; 8] |}
     (take 1 function_metadata) sample_store).1 = inr ()
  /\ (add_items {| np.shape := [1%nat; 3%nat]; np.data := [6; 8; 9] |}
        (take 1 function_metadata) sample_store).2 = sample_store.
Proof.
  split.
  - apply (add_items_succeeds_iff sample_store
             {| np.shape := [1%nat; 2%nat]; np.data := [6; 8] |}
             (take 1 function_metadata)). reflexivity.
  - apply (add_items_succeeds_iff sample_store
             {| np.shape := [1%nat; 3%nat]; np.data := [6; 8; 9] |}
             (take 1 function_metadata)). exists AssertionError. reflexivity.
Defined.

Lemma add_items_batches_compose_witness :
  add_all sample_batches (VectorStore_init 2)
  = add_items {| np.shape := [3%nat; 2%nat]; np.data := [0; 0; 3; 4; 0; 5] |}
      (take 3 function_metadata) (VectorStore_init 2).
Proof.
  apply (add_items_batches_compose (VectorStore_init 2)
           {| np.shape := [2%nat; 2%nat]; np.data := [0; 0; 3; 4] |}
           (take 2 function_metadata)
           {| np.shape := [1%nat; 2%nat]; np.data := [0; 5] |}
           (take 1 (drop 2 function_metadata)) 2 1); reflexivity.
Defined.



Lemma initialize_vector_store_memory_matches_disk_witness :
  exists vs,
    vector_store
      (initialize_vector_store 2 toy_model function_metadata "vector_db"
         (EmbeddingGenerator_init "all-MiniLM-L6-v2", ∅)).2.1 = Some vs
    /\ load "vector_db"
         (initialize_vector_store 2 toy_model function_metadata "vector_db"
            (EmbeddingGenerator_init "all-MiniLM-L6-v2", ∅)).2.2 = inr vs
    /\ metadata vs = function_metadata.
Proof.
  eexists. 
  pose proof (initialize_vector_store_memory_matches_disk 2 toy_model
                function_metadata "vector_db"
                (EmbeddingGenerator_init "all-MiniLM-L6-v2", ∅) _ eq_refl)
    as [Hmem Hdisk].
  split; [exact Hmem|]. split; [exact Hdisk|reflexivity].
Defined.

Lemma unreadable_saved_index_is_not_rebuilt_witness :
  fails (find_matching_function 2 toy_model function_metadata "cpu load" 1
           (EmbeddingGenerator_init "all-MiniLM-L6-v2", garbage_index_fs)).1
  /\ (find_matching_function 2 toy_model function_metadata "cpu load" 1
        (EmbeddingGenerator_init "all-MiniLM-L6-v2", garbage_index_fs)).2
     = (EmbeddingGenerator_init "all-MiniLM-L6-v2", garbage_index_fs).
Proof.
  apply (unreadable_saved_index_is_not_rebuilt 2 toy_model function_metadata
           "cpu load" 1 (EmbeddingGenerator_init "all-MiniLM-L6-v2", garbage_index_fs));
    [reflexivity|reflexivity|].
  intros ([a Ha] & _). vm_compute in Ha. discriminate Ha.
Defined.

Lemma find_matching_function_fresh_results_witness :
  exists matches,
    (find_matching_function 2 toy_model function_metadata "cpu load" 3
       (EmbeddingGenerator_init "all-MiniLM-L6-v2", ∅)).1 = inr matches
    /\ length matches = 3%nat
    /\ forall m, m ∈ matches -> m ∈ function_metadata.
Proof.
  destruct (find_matching_function_fresh_results 2 toy_model function_metadata
              "cpu load" 3 (EmbeddingGenerator_init "all-MiniLM-L6-v2", ∅))
    as (matches & Hfind & Hlen & Hin & _);
    [reflexivity|reflexivity|discriminate|lia
    |unfold all_finite; apply (bool_decide_unpack _); vm_compute; exact I|].
  exists matches. split; [exact Hfind|]. split; [exact Hlen|exact Hin].
Defined.

Lemma find_matching_function_rejected_after_initialization_witness :
  (find_matching_function 2 toy_model function_metadata "cpu load" 0
     (EmbeddingGenerator_init "all-MiniLM-L6-v2", ∅)).1 = inl AssertionError
  /\ exists vs,
       vector_store
         (find_matching_function 2 toy_model function_metadata "cpu load" 0
            (EmbeddingGenerator_init "all-MiniLM-L6-v2", ∅)).2.1 = Some vs
       /\ metadata vs = function_metadata.
Proof.
  destruct (find_matching_function_rejected_after_initialization 2 toy_model
              function_metadata "cpu load" 0
              (EmbeddingGenerator_init "all-MiniLM-L6-v2", ∅))
    as (Herr & vs & Hvs & Hmd & _);
    [reflexivity|reflexivity|discriminate|lia|].
  split; [exact Herr|]. exists vs. split; [exact Hvs|exact Hmd].
Defined.

Lemma generate_code_ignores_foreign_params_witness :
  generate_code string quote "create_file"
    (Some [("filename", "a.txt"); ("mode", "w"); ("content", "hi")]%string)
  = generate_code string quote "create_file"
      (Some [("filename", "a.txt"); ("content", "hi")]%string)
  /\ generate_code string quote "read_file" (Some [("mode", "w")]%string)
     = generate_code string quote "read_file" None.
Proof.
  split.
  - apply (generate_code_ignores_foreign_params string quote "create_file"
             ["filename"; "content"]%string
             [("filename", "a.txt"); ("mode", "w"); ("content", "hi")]%string).
    reflexivity.
  - apply (generate_code_ignores_foreign_params string quote "read_file"
             ["filename"]%string [("mode", "w")]%string); reflexivity.
Defined.

Lemma generate_multi_function_code_params_by_position_witness :
  (generate_multi_function_code string quote ["read_file"; "open_chrome"]%string
     (Some [Some [("filename", "a.txt")]; None; Some [("x", "y")]]%string)).1
  = (generate_multi_function_code string quote ["read_file"; "open_chrome"]%string
       (Some [Some [("filename", "a.txt")]]%string)).1.
Proof.
  apply (generate_multi_function_code_params_by_position string quote
           ["read_file"; "open_chrome"]%string).
  intros [|[|i]] Hi; [reflexivity|reflexivity|simpl in Hi; lia].
Defined.

Lemma generate_multi_function_code_pads_params_list_witness :
  exists after,
    (generate_multi_function_code string quote
       ["read_file"; "open_chrome"; "get_cpu_usage"]%string
       (Some [Some [("filename", "a.txt")]]%string)).2 = Some after
    /\ length after = 3%nat.
Proof.
  destruct (generate_multi_function_code_pads_params_list string quote
              ["read_file"; "open_chrome"; "get_cpu_usage"]%string
              [Some [("filename", "a.txt")]]%string)
    as (after & Hafter & _ & _ & Hlen & _).
  exists after. split; [exact Hafter|]. apply Hlen. discriminate.
Defined.


Lemma execute_function_appends_to_history_witness :
  sample_execute {| prompt := Some ""%string; session_id := None; params := None |}
    fresh_server
  = (HTTPException string nat 400 "Prompt is required", fresh_server)
  /\ exists added,
       get_chat_history "s1" (chat_sessions string (sample_execute sample_request fresh_server).2)
       = get_chat_history "s1" (chat_sessions string fresh_server)
         ++ UserEntry string "open the calculator" :: added.
Proof.
  split.
  - apply (execute_function_appends_to_history string quote 2 toy_model
             function_metadata nat sample_invoke (fun _ => 0%nat) (fun _ => ""%string)
             {| prompt := Some ""%string; session_id := None; params := None |}
             fresh_server).
    right. reflexivity.
  - eexists.
    destruct (execute_function_appends_to_history string quote 2 toy_model
                function_metadata nat sample_invoke (fun _ => 0%nat)
                (fun _ => ""%string) sample_request fresh_server) as [_ Hhist].
    destruct (Hhist "open the calculator"%string) as [_ Hget];
      [reflexivity|discriminate|].
    exact Hget.
Defined.

Lemma execute_multiple_functions_appends_to_history_witness :
  exists added,
    get_chat_history "s1"
      (chat_sessions string (sample_multi_execute sample_multi_request fresh_server).2)
    = get_chat_history "s1" (chat_sessions string fresh_server)
      ++ UserEntry string "list the files" :: added.
Proof.
  eexists.
  destruct (execute_multiple_functions_appends_to_history string quote 2 toy_model
              function_metadata nat sample_invoke (fun _ => ""%string)
              (fun _ => 0%nat) sample_multi_request fresh_server) as [_ Hhist].
  destruct (Hhist "list the files"%string) as [_ Hget];
    [reflexivity|discriminate|].
  exact Hget.
Defined.

Lemma execute_multiple_functions_nonpositive_num_functions_witness :
  exists detail,
    (sample_multi_execute
       {| multi_prompt := Some "list the files"%string; multi_session_id := None;
          num_functions := Some 0; params_list := None |} fresh_server).1
    = HTTPException string nat 500 detail.
Proof.
  destruct (execute_multiple_functions_nonpositive_num_functions string quote 2
              toy_model function_metadata nat sample_invoke (fun _ => ""%string)
              (fun _ => 0%nat)
              {| multi_prompt := Some "list the files"%string;
                 multi_session_id := None;
                 num_functions := Some 0; params_list := None |}
              fresh_server "list the files"%string 0) as [Hout _];
    [reflexivity|discriminate|reflexivity|lia|].
  exact Hout.
Defined.


Lemma execute_multiple_functions_reports_every_function_witness :
  match (sample_multi_execute sample_multi_request fresh_server).1 with
  | MultiExecuteBody _ _ names _ results errors _ =>
    names <> [] /\ dom results ∪ dom errors = (list_to_set names : gset string)
  | _ => False
  end.
Proof.
  destruct (sample_multi_execute sample_multi_request fresh_server).1
    as [status detail|error|f code r e t|names code results errors time] eqn:Hout;
    try (exfalso; vm_compute in Hout; discriminate Hout).
  destruct (execute_multiple_functions_reports_every_function string quote 2
              toy_model function_metadata nat sample_invoke (fun _ => ""%string)
              (fun _ => 0%nat) sample_multi_request fresh_server
              names code results errors time Hout) as (Hne & Hdom & _).
  split; [exact Hne|exact Hdom].
Defined.
